(** * Bookshop chatbot backend: the request dispatch of [GPT_backend.py]

    A shallow embedding of [src/GPT_backend.py]: the oracle adapter functions
    ([analyze_query], [is_book_followup], [is_criteria_followup],
    [get_book_details], [fetch_real_links], [generate_response]) and the
    [/chatbot] handler with its per-session memory.

    Python values that come out of [json.loads] or out of the request body
    are kept as they are at run time, untyped, in [json]; exceptions are an
    explicit outcome and the world (session table and the log of oracle
    calls) is threaded through every call and survives an exception, as in
    Python. *)

From Stdlib Require Import Floats ZArith Ascii String Sorted.
From stdpp Require Import base gmap list strings.

Set Warnings "-register-all,-inexact-float".

Local Open Scope string_scope.

(** ** Python values *)

(** What [json.loads] and [request.get_json] yield: [None], [bool], [int],
    [float], [str], [list], [dict].  A [dict] keeps its insertion order and
    is an association list; [dict_set] keeps the keys unique. *)
Inductive json : Type :=
| JNull
| JBool (b : bool)
| JInt (z : Z)
| JFloat (f : float)
| JStr (s : string)
| JArr (xs : list json)
| JObj (kvs : list (string * json)).

Definition pydict : Type := list (string * json).

(** [bool(v)]: the values Python treats as false are [None], [False], [0],
    [0.0] and [-0.0], the empty string, the empty list and the empty dict. *)
Definition truthy (v : json) : bool :=
  match v with
  | JNull => false
  | JBool b => b
  | JInt z => negb (z =? 0)%Z
  | JFloat f => negb (PrimFloat.eqb f 0%float)
  | JStr s => negb (bool_decide (s = ""))
  | JArr xs => match xs with [] => false | _ :: _ => true end
  | JObj kvs => match kvs with [] => false | _ :: _ => true end
  end.

(** [d.get(k)] on a dict, [None] when the key is absent. *)
Fixpoint dict_get (k : string) (d : pydict) : option json :=
  match d with
  | [] => None
  | (k', v) :: d' => if bool_decide (k' = k) then Some v else dict_get k d'
  end.

(** [k in d] on a dict. *)
Definition dict_has (k : string) (d : pydict) : bool :=
  match dict_get k d with Some _ => true | None => false end.

(** [d[k] = v]: overwrite in place when the key exists, else add it last. *)
Fixpoint dict_set (k : string) (v : json) (d : pydict) : pydict :=
  match d with
  | [] => [(k, v)]
  | (k', v') :: d' =>
      if bool_decide (k' = k) then (k, v) :: d' else (k', v') :: dict_set k v d'
  end.

(** [isinstance(v, list)]. *)
Definition is_list (v : json) : bool :=
  match v with JArr _ => true | _ => false end.

(** [l[-n:]] for [n > 0]: the last [n] elements, all of them when the list
    is shorter. *)
Definition last_n {A : Type} (n : nat) (l : list A) : list A :=
  drop (length l - n) l.

(** ** Strings

    A Python [str] is represented by the bytes of its UTF-8 encoding.  The
    searches below look for ASCII characters only, so the slice taken
    between two hits is the same text whether positions count bytes or
    code points. *)

(** [s.find(c)] for a one-character [c]: first position, [-1] when absent. *)
Fixpoint find_from (c : ascii) (s : string) (i : Z) : Z :=
  match s with
  | EmptyString => (-1)%Z
  | String a s' => if Ascii.eqb a c then i else find_from c s' (i + 1)%Z
  end.

Definition str_find (c : ascii) (s : string) : Z := find_from c s 0%Z.

(** [s.rfind(c)]: last position, [-1] when absent. *)
Fixpoint rfind_from (c : ascii) (s : string) (i : Z) (found : Z) : Z :=
  match s with
  | EmptyString => found
  | String a s' =>
      rfind_from c s' (i + 1)%Z (if Ascii.eqb a c then i else found)
  end.

Definition str_rfind (c : ascii) (s : string) : Z := rfind_from c s 0%Z (-1)%Z.

(** [s[start:stop]] for non-negative bounds. *)
Definition str_slice (s : string) (start stop : Z) : string :=
  String.substring (Z.to_nat start) (Z.to_nat (stop - start)) s.

(** [s.replace(' ', '+')]. *)
Fixpoint replace_space_plus (s : string) : string :=
  match s with
  | EmptyString => EmptyString
  | String a s' =>
      String (if Ascii.eqb a " "%char then "+"%char else a) (replace_space_plus s')
  end.

(** [k in s] for two strings: [k] occurs in [s]. *)
Fixpoint str_contains (k s : string) : bool :=
  String.prefix k s ||
  match s with
  | EmptyString => false
  | String _ s' => str_contains k s'
  end.

(** ** Records of the program *)

(** [class Message].  Its [timestamp] field takes the default
    [datetime.now()], evaluated once when the class is defined; no code
    path reads it and it is not carried here. *)
Record Message : Type := mkMessage { role : string; content : string }.

(** [class Book]. *)
Record Book : Type := mkBook {
  title : string;
  author : list string;
  price : float;
  summary : string;
  purchase_links : list (string * string)
}.

(** [class Output]. *)
Record Output : Type := mkOutput { books : list Book }.

(** [book.dict()]: the fields of a [Book] as a plain dict. *)
Definition Book_dict (b : Book) : json :=
  JObj [ ("title", JStr (title b));
         ("author", JArr (JStr <$> author b));
         ("price", JFloat (price b));
         ("summary", JStr (summary b));
         ("purchase_links", JObj (prod_map id JStr <$> purchase_links b)) ].

(** [class ChatHistory]: [last_recommended_books] holds dicts
    ([book.dict()]), [last_query] is [None] until the first fresh
    recommendation. *)
Record ChatHistory : Type := mkChatHistory {
  messages : list Message;
  last_recommended_books : list json;
  last_query : json
}.

(** [ChatHistory()]: every instance gets its own copy of the defaults. *)
Definition ChatHistory_new : ChatHistory :=
  {| messages := []; last_recommended_books := []; last_query := JNull |}.

(** ** The oracle: [client.chat.completions.create] *)

(** The [content] of one chat message sent to the oracle.  The prompts are
    fixed texts with holes; a prompt is recorded as the text it is an
    instance of together with the values put in its holes, which determine
    the rendered string. *)
Inductive Prompt : Type :=
| Text (v : json)
    (** a value sent as it is: [msg.content] or [query] *)
| TopicSystem
    (** system prompt of [analyze_query] *)
| BookFollowupSystem
    (** system prompt of [is_book_followup] *)
| BookFollowupUser (last_books : list json) (query : json)
    (** [f"Previous books: {last_books}\n\nUser question: {query}"] *)
| CriteriaSystem
    (** system prompt of [is_criteria_followup] *)
| CriteriaUser (last_query query : json)
    (** [f"Previous query: {last_query}\n\nCurrent query: {query}"] *)
| DetailsSystem (book_title book_author book_summary query : json)
    (** system prompt of [get_book_details], with [book['title']],
        [', '.join(book['author'])], [book['summary']] and [query] *)
| LinksUser (book_title book_author : json)
    (** the prompt of [fetch_real_links] *)
| RecommendSystem (criteria : option json)
    (** system prompt of [generate_response]; the line
        [Additional criteria: {criteria}] is present only for a truthy
        [criteria] *).

(** One call of [client.chat.completions.create]: its [messages] argument,
    a list of [{"role": ..., "content": ...}].  The model name and the
    sampling parameters are constants of each call site. *)
Definition OracleCall : Type := list (string * Prompt).

(** What a call does: it raises, or it returns a response whose
    [choices[0].message.content] is a string, or a response that has no
    such string ([content] is [None]). *)
Inductive Reply : Type :=
| Raises (msg : string)
| Replies (content : option string).

(** ** Exceptions, the world and the monad *)

Inductive exn : Type :=
| OracleError (msg : string)
| AttributeError
| TypeError
| KeyError (k : string)
| ValueError (msg : string)
| JSONDecodeError
| ValidationError.

(** The module-level dict [chat_histories] and the calls made to the oracle
    so far, oldest first. *)
Record World : Type := mkWorld {
  chat_histories : gmap string ChatHistory;
  oracle_log : list OracleCall
}.

(** The world after one more call to the oracle. *)
Definition record_call (c : OracleCall) (w : World) : World :=
  {| chat_histories := chat_histories w; oracle_log := oracle_log w ++ [c] |}.

Inductive Outcome (A : Type) : Type :=
| Ret (a : A)
| Exc (e : exn).
Arguments Ret {A} a.
Arguments Exc {A} e.

(** A computation returns or raises, and leaves a world either way. *)
Definition M (A : Type) : Type := World -> Outcome A * World.

Definition ret {A : Type} (a : A) : M A := fun w => (Ret a, w).

Definition raise {A : Type} (e : exn) : M A := fun w => (Exc e, w).

Definition bind {A B : Type} (m : M A) (k : A -> M B) : M B :=
  fun w => match m w with
           | (Ret a, w') => k a w'
           | (Exc e, w') => (Exc e, w')
           end.

(** [try: m  except Exception as e: h e]. *)
Definition try_except {A : Type} (m : M A) (h : exn -> M A) : M A :=
  fun w => match m w with
           | (Ret a, w') => (Ret a, w')
           | (Exc e, w') => h e w'
           end.

Declare Scope py_scope.
Delimit Scope py_scope with py.
Notation "'let*' x ':=' m 'in' k" := (bind m (fun x => k))
  (at level 10, x name, m at level 100, k at level 200) : py_scope.
Notation "'do' m 'then' k" := (bind m (fun _ => k))
  (at level 10, m at level 100, k at level 200) : py_scope.
Local Open Scope py_scope.

(** [if not c: raise e]. *)
Definition require (c : bool) (e : exn) : M unit :=
  if c then ret tt else raise e.

(** [v[k]] for a string key: only a dict can be indexed by a string. *)
Definition subscript (v : json) (k : string) : M json :=
  match v with
  | JObj d => match dict_get k d with
              | Some x => ret x
              | None => raise (KeyError k)
              end
  | _ => raise TypeError
  end.

(** [v[k] = x] for a string key. *)
Definition setitem (v : json) (k : string) (x : json) : M json :=
  match v with
  | JObj d => ret (JObj (dict_set k x d))
  | _ => raise TypeError
  end.

(** [k in v] for a string [k]: key of a dict, element of a list, substring
    of a string; any other value is not a container. *)
Definition py_in (k : string) (v : json) : M bool :=
  match v with
  | JObj d => ret (dict_has k d)
  | JArr xs =>
      ret (existsb (fun x => match x with
                             | JStr s => bool_decide (s = k)
                             | _ => false
                             end) xs)
  | JStr s => ret (str_contains k s)
  | _ => raise TypeError
  end.

(** [all(k in v for k in ks)], left to right, stopping at the first miss. *)
Fixpoint all_in (ks : list string) (v : json) : M bool :=
  match ks with
  | [] => ret true
  | k :: ks' => let* b := py_in k v in
                if b then all_in ks' v else ret false
  end.

(** ** Library functions the program calls

    [json.loads], [str.strip], [str.lower], [float] on a string and the
    validation pydantic runs when a model is built are functions of the
    Python run time, not of this repository; the program is modelled over
    any behaviour of theirs. *)
Class PyLib : Type := {
  (** [json.loads(s)]; [None] when it raises [JSONDecodeError] *)
  json_loads : string -> option json;
  (** [s.strip()] *)
  str_strip : string -> string;
  (** [s.lower()] *)
  str_lower : string -> string;
  (** [float(s)] for a string; [None] when it raises [ValueError] *)
  float_of_str : string -> option float;
  (** what pydantic makes of a value that is not a [str] given for a [str]
      field; [None] when it raises [ValidationError] *)
  pydantic_str : json -> option string;
  (** what pydantic makes of a value given for a [Book] field; [None] when
      it raises [ValidationError] *)
  Book_validate : json -> option Book
}.

(** ** The oracle adapter and the handler *)

(** The three books [generate_response] returns when anything goes wrong. *)
Definition default_books : Output :=
  {| books :=
       [ {| title := "The Great Gatsby";
            author := ["F. Scott Fitzgerald"];
            price := 12.99%float;
            summary := "A story of the fabulously wealthy Jay Gatsby and his love for the beautiful Daisy Buchanan.";
            purchase_links :=
              [ ("amazon", "https://www.amazon.it/Great-Gatsby-F-Scott-Fitzgerald/dp/0141182636");
                ("lafeltrinelli", "https://www.lafeltrinelli.it/libri/f-scott-fitzgerald/great-gatsby-9780141182636") ] |};
         {| title := "1984";
            author := ["George Orwell"];
            price := 14.99%float;
            summary := "A dystopian novel set in a totalitarian society where critical thought is suppressed.";
            purchase_links :=
              [ ("amazon", "https://www.amazon.it/1984-George-Orwell/dp/0451524934");
                ("lafeltrinelli", "https://www.lafeltrinelli.it/libri/george-orwell/1984-9780451524935") ] |};
         {| title := "To Kill a Mockingbird";
            author := ["Harper Lee"];
            price := 13.99%float;
            summary := "The story of racial injustice and the loss of innocence in the American South.";
            purchase_links :=
              [ ("amazon", "https://www.amazon.it/Kill-Mockingbird-Harper-Lee/dp/0446310786");
                ("lafeltrinelli", "https://www.lafeltrinelli.it/libri/harper-lee/kill-mockingbird-9780446310789") ] |} ] |}.

(** The keys every recommended book must have. *)
Definition book_keys : list string :=
  ["title"; "author"; "price"; "summary"; "purchase_links"].

(** The fixed texts of the handler. *)
Definition criteria_caption : string :=
  "Here are some books matching your criteria:".

Definition fresh_caption : string := "Here are some books you might like:".

Definition rejection_text : string :=
  "I'm just a bookseller, I can help you find the next book to read but nothing else".

(** The search links [fetch_real_links] falls back to. *)
Definition search_links (title_url : string) : json :=
  JObj [ ("amazon", JStr ("https://www.amazon.it/s?k=" ++ title_url));
         ("lafeltrinelli",
          JStr ("https://www.lafeltrinelli.it/search?q=" ++ title_url)) ].

(** [start = content.find('{')], [end = content.rfind('}') + 1] and the
    slice [content[start:end]] taken when [start != -1 and end != -1]. *)
Definition extract_json (content : string) : string :=
  let start := str_find "{"%char content in
  let stop := (str_rfind "}"%char content + 1)%Z in
  if negb (start =? -1)%Z && negb (stop =? -1)%Z
  then str_slice content start stop
  else content.

(** The body of a request as [request.get_json()] gives it: an object whose
    [query] is any JSON value ([None] when the key is absent) and whose
    [session_id], when present, is a string. *)
Record Request : Type := mkRequest {
  data_query : json;
  data_session_id : option string
}.

(** What the handler returns: [jsonify({response, books, session_id})] with
    status 200, [jsonify({"error": ...}), 400], or
    [jsonify({"error": str(e)}), 500] for the exception [e] caught. *)
Inductive Response : Type :=
| Http200 (response : string) (books : option (list json)) (session_id : string)
| Http400 (error : string)
| Http500 (error : exn).

Section Backend.

Context {lib : PyLib}.

(** The external service: its reply to a call may depend on all the calls
    made before. *)
Variable oracle : list OracleCall -> OracleCall -> Reply.

(** [client.chat.completions.create(messages=c)]: the call is recorded,
    then it returns the response's content or raises. *)
Definition create (c : OracleCall) : M (option string) :=
  fun w =>
    match oracle (oracle_log w) c with
    | Raises msg => (Exc (OracleError msg), record_call c w)
    | Replies r => (Ret r, record_call c w)
    end.

(** [response.choices[0].message.content.strip()]. *)
Definition content_strip (r : option string) : M string :=
  match r with
  | Some s => ret (str_strip s)
  | None => raise AttributeError
  end.

(** [json.loads(s)]. *)
Definition loads (s : string) : M json :=
  match json_loads s with
  | Some v => ret v
  | None => raise JSONDecodeError
  end.

(** [{"role": msg.role, "content": msg.content}] for the last [n]
    messages of the history. *)
Definition chat_context (n : nat) (chat_history : list Message)
  : list (string * Prompt) :=
  (fun msg => (role msg, Text (JStr (content msg)))) <$> last_n n chat_history.

(** The [messages] that [analyze_query] sends. *)
Definition analyze_query_messages (query : json) (chat_history : list Message)
  : OracleCall :=
  ([("system", TopicSystem)] ++ chat_context 3 chat_history
     ++ [("user", Text query)])%list.

Definition analyze_query (query : json) (chat_history : list Message)
  : M bool :=
  let messages := analyze_query_messages query chat_history in
  let* response := create messages in
  let* answer := content_strip response in
  ret (bool_decide (str_lower answer = "true")).

(** The [messages] that [is_book_followup] sends. *)
Definition is_book_followup_messages (query : json) (last_books : list json)
  : OracleCall :=
  [ ("system", BookFollowupSystem);
    ("user", BookFollowupUser last_books query) ].

(** Python's [None] is [JNull]. *)
Definition is_book_followup (query : json) (last_books : list json)
  : M json :=
  match last_books with
  | [] => ret JNull
  | _ :: _ =>
      let messages := is_book_followup_messages query last_books in
      let* response := create messages in
      try_except
        (let* content := content_strip response in
         if bool_decide (str_lower content = "null")
         then ret JNull
         else loads content)
        (fun _ => ret JNull)
  end.

(** The [messages] that [is_criteria_followup] sends. *)
Definition is_criteria_followup_messages (query last_query : json)
  : OracleCall :=
  [ ("system", CriteriaSystem);
    ("user", CriteriaUser last_query query) ].

Definition is_criteria_followup (query last_query : json) : M bool :=
  let messages := is_criteria_followup_messages query last_query in
  let* response := create messages in
  let* answer := content_strip response in
  ret (bool_decide (str_lower answer = "true")).

(** [', '.join(v)] succeeds on a string, on a list of strings and on a
    dict (whose keys are strings). *)
Definition join_check (v : json) : M unit :=
  match v with
  | JStr _ | JObj _ => ret tt
  | JArr xs =>
      require (forallb (fun x => match x with JStr _ => true | _ => false end) xs)
              TypeError
  | _ => raise TypeError
  end.

Definition get_book_details (book query : json) : M string :=
  let* t := subscript book "title" in
  let* a := subscript book "author" in
  do join_check a then
  let* s := subscript book "summary" in
  let messages := [("system", DetailsSystem t a s query)] in
  let* response := create messages in
  content_strip response.

Definition fetch_real_links (book_title book_author : json) : M json :=
  let* response := create [("user", LinksUser book_title book_author)] in
  try_except
    (let* content := content_strip response in
     let* links := loads (extract_json content) in
     do require (match links with
                 | JObj d => dict_has "amazon" d && dict_has "lafeltrinelli" d
                 | _ => false
                 end) (ValueError "Missing links") then
     ret links)
    (fun _ =>
       match book_title with
       | JStr t => ret (search_links (replace_space_plus (str_lower t)))
       | _ => raise AttributeError
       end).

(** One turn of the loop [for book in books] of [generate_response]. *)
Definition process_book (book : json) : M json :=
  let* ok := all_in book_keys book in
  do require ok (ValueError "Invalid book structure") then
  (* if not isinstance(book['author'], list): book['author'] = [book['author']] *)
  let* a := subscript book "author" in
  let* book := (if is_list a then ret book
                else setitem book "author" (JArr [a])) in
  (* if not isinstance(book['price'], (int, float)): book['price'] = float(book['price']);
     a Python bool is an int *)
  let* p := subscript book "price" in
  let* book := (match p with
                | JInt _ | JFloat _ | JBool _ => ret book
                | JStr s => match float_of_str s with
                            | Some f => setitem book "price" (JFloat f)
                            | None => raise (ValueError "could not convert string to float")
                            end
                | JNull | JArr _ | JObj _ => raise TypeError
                end) in
  (* fetch_real_links(book['title'], book['author'][0] if book['author'] else "") *)
  let* t := subscript book "title" in
  let* a := subscript book "author" in
  let a0 := match a with
            | JArr (x :: _) => x
            | _ => JStr ""
            end in
  let* real_links := fetch_real_links t a0 in
  setitem book "purchase_links" real_links.

(** The whole loop: the books are processed in order and the first
    exception ends it. *)
Fixpoint process_books (bs : list json) : M (list json) :=
  match bs with
  | [] => ret []
  | b :: bs' => let* b' := process_book b in
                let* rest := process_books bs' in
                ret (b' :: rest)
  end.

(** [Output(books=processed_books)]: pydantic validates every entry. *)
Definition Output_new (processed_books : list json) : M Output :=
  match mapM Book_validate processed_books with
  | Some bs => ret {| books := bs |}
  | None => raise ValidationError
  end.

(** The [messages] that [generate_response] sends. *)
Definition generate_response_messages (query : json)
    (chat_history : list Message) (criteria : json) : OracleCall :=
  ([("system", RecommendSystem (if truthy criteria then Some criteria else None))]
     ++ chat_context 5 chat_history
     ++ [("user", Text query)])%list.

(** What [generate_response] does with the response of its call, inside
    its [try]: parse the JSON, check its structure, process every book
    and build the [Output]. *)
Definition generate_response_parse (response : option string) : M Output :=
  let* content := content_strip response in
  let* data := loads content in
  do require (match data with
              | JObj d => dict_has "books" d
              | _ => false
              end) (ValueError "Invalid response structure") then
  let* bs := subscript data "books" in
  match bs with
  | JArr (b :: bs') =>
      let* processed_books := process_books (b :: bs') in
      Output_new processed_books
  | _ => raise (ValueError "No books in response")
  end.

(** [criteria] is [JNull] when the argument is left out. *)
Definition generate_response (query : json) (chat_history : list Message)
    (criteria : json) : M Output :=
  let messages := generate_response_messages query chat_history criteria in
  try_except
    (let* response := create messages in
     generate_response_parse response)
    (fun _ => ret default_books).

(** [Message(role=r, content=c)]. *)
Definition Message_new (r : string) (c : json) : M Message :=
  match c with
  | JStr s => ret {| role := r; content := s |}
  | _ => match pydantic_str c with
         | Some s => ret {| role := r; content := s |}
         | None => raise ValidationError
         end
  end.

(** [if session_id not in chat_histories: chat_histories[session_id] = ChatHistory()]. *)
Definition init_session (session_id : string) : M unit :=
  fun w =>
    match chat_histories w !! session_id with
    | Some _ => (Ret tt, w)
    | None => (Ret tt, {| chat_histories := <[session_id := ChatHistory_new]> (chat_histories w);
                          oracle_log := oracle_log w |})
    end.

(** The object [chat_history = chat_histories[session_id]] as it is now;
    the handler has created the entry before it reads it. *)
Definition chat_history_of (session_id : string) (w : World) : ChatHistory :=
  default ChatHistory_new (chat_histories w !! session_id).

Definition read_chat_history (session_id : string) : M ChatHistory :=
  fun w => (Ret (chat_history_of session_id w), w).

(** An update in place of the object [chat_histories[session_id]]. *)
Definition update_chat_history (session_id : string)
    (f : ChatHistory -> ChatHistory) : M unit :=
  fun w => (Ret tt, {| chat_histories := alter f session_id (chat_histories w);
                       oracle_log := oracle_log w |}).

(** The three ways the handler changes a [ChatHistory] object. *)
Definition add_message (m : Message) (h : ChatHistory) : ChatHistory :=
  {| messages := messages h ++ [m];
     last_recommended_books := last_recommended_books h;
     last_query := last_query h |}.

Definition put_books (bs : list json) (h : ChatHistory) : ChatHistory :=
  {| messages := messages h;
     last_recommended_books := bs;
     last_query := last_query h |}.

Definition put_query (q : json) (h : ChatHistory) : ChatHistory :=
  {| messages := messages h;
     last_recommended_books := last_recommended_books h;
     last_query := q |}.

(** [chat_history.messages.append(m)]. *)
Definition append_message (session_id : string) (m : Message) : M unit :=
  update_chat_history session_id (add_message m).

(** [chat_history.last_recommended_books = bs]. *)
Definition set_last_recommended_books (session_id : string) (bs : list json)
  : M unit :=
  update_chat_history session_id (put_books bs).

(** [chat_history.last_query = q]. *)
Definition set_last_query (session_id : string) (q : json) : M unit :=
  update_chat_history session_id (put_query q).

(** Lines 378-403 of the handler: topic classification, then either the
    rejection or a fresh recommendation. *)
Definition chatbot_topic (query : json) (session_id : string) : M Response :=
  let* h := read_chat_history session_id in
  let* is_book_related := analyze_query query (messages h) in
  if negb is_book_related then
    let response_text := rejection_text in
    let* m := Message_new "assistant" (JStr response_text) in
    do append_message session_id m then
    ret (Http200 response_text None session_id)
  else
    let response_text := fresh_caption in
    let* h := read_chat_history session_id in
    let* answer := generate_response query (messages h) JNull in
    do set_last_recommended_books session_id (Book_dict <$> books answer) then
    do set_last_query session_id query then
    let* m := Message_new "assistant" (JStr response_text) in
    do append_message session_id m then
    ret (Http200 response_text (Some (Book_dict <$> books answer)) session_id).

(** Lines 362-376, falling through to [chatbot_topic]: the follow-up with
    criteria.  [and] calls [is_criteria_followup] only for a truthy
    [last_query]. *)
Definition chatbot_criteria (query : json) (session_id : string) : M Response :=
  let* h := read_chat_history session_id in
  let* c := (if truthy (last_query h)
             then is_criteria_followup query (last_query h)
             else ret false) in
  if c then
    let response_text := criteria_caption in
    let* h := read_chat_history session_id in
    let* answer := generate_response (last_query h) (messages h) query in
    do set_last_recommended_books session_id (Book_dict <$> books answer) then
    let* m := Message_new "assistant" (JStr response_text) in
    do append_message session_id m then
    ret (Http200 response_text (Some (Book_dict <$> books answer)) session_id)
  else chatbot_topic query session_id.

(** Lines 350-360, falling through to [chatbot_criteria]: the follow-up
    about one of the books recommended last. *)
Definition chatbot_followup (query : json) (session_id : string) : M Response :=
  let* h := read_chat_history session_id in
  match last_recommended_books h with
  | [] => chatbot_criteria query session_id
  | _ :: _ =>
      let* matched_book := is_book_followup query (last_recommended_books h) in
      if truthy matched_book then
        let* detailed_response := get_book_details matched_book query in
        let* m := Message_new "assistant" (JStr detailed_response) in
        do append_message session_id m then
        ret (Http200 detailed_response None session_id)
      else chatbot_criteria query session_id
  end.

(** The handler of [POST /chatbot]. *)
Definition chatbot (data : Request) : M Response :=
  try_except
    (let query := data_query data in
     let session_id := default "default" (data_session_id data) in
     if negb (truthy query) then ret (Http400 "No query provided")
     else
       do init_session session_id then
       let* m := Message_new "user" query in
       do append_message session_id m then
       chatbot_followup query session_id)
    (fun e => ret (Http500 e)).

End Backend.


(** Which function made a call to the oracle. *)
Inductive Stage : Type :=
| StFollowup | StDetails | StCriteria | StTopic | StRecommend | StLinks.

(** The first message of a call identifies its call site. *)
Definition stage_of (c : OracleCall) : option Stage :=
  match c with
  | (_, BookFollowupSystem) :: _ => Some StFollowup
  | (_, DetailsSystem _ _ _ _) :: _ => Some StDetails
  | (_, CriteriaSystem) :: _ => Some StCriteria
  | (_, TopicSystem) :: _ => Some StTopic
  | (_, RecommendSystem _) :: _ => Some StRecommend
  | (_, LinksUser _ _) :: _ => Some StLinks
  | _ => None
  end.

Definition is_links (c : OracleCall) : Prop := stage_of c = Some StLinks.

(** * What a turn does

    The vocabulary of the properties: the call sites, what the adapter
    functions make of a reply, and every way one turn of the dispatch can
    go. *)

Local Open Scope list_scope.

Section Specification.

Context {lib : PyLib}.
Variable oracle : list OracleCall -> OracleCall -> Reply.

(** The world after several more calls. *)
Definition record_calls (cs : list OracleCall) (w : World) : World :=
  {| chat_histories := chat_histories w; oracle_log := oracle_log w ++ cs |}.

(** [m] leaves the session table alone and makes only calls in [P]. *)
Definition calls_only {A : Type} (P : OracleCall -> Prop) (m : M A) : Prop :=
  forall w, exists cs, (m w).2 = record_calls cs w /\ Forall P cs.

(** [response.choices[0].message.content.strip()] for a reply. *)
Definition text_of (rep : Reply) : Outcome string :=
  match rep with
  | Raises msg => Exc (OracleError msg)
  | Replies None => Exc AttributeError
  | Replies (Some s) => Ret (str_strip s)
  end.

(** The yes/no answer read off a reply: the stripped, lower-cased text
    compared with ["true"]. *)
Definition verdict (rep : Reply) : Outcome bool :=
  match text_of rep with
  | Ret answer => Ret (bool_decide (str_lower answer = "true"))
  | Exc e => Exc e
  end.

(** What [is_book_followup] makes of a response. *)
Definition followup_value (o : option string) : json :=
  match o with
  | None => JNull
  | Some s =>
      if bool_decide (str_lower (str_strip s) = "null") then JNull
      else default JNull (json_loads (str_strip s))
  end.

(** The world in the middle of a turn for [sid]: the session's object is
    [h] and the calls [d] have been made since the turn began in [w]. *)
Definition turn_world (sid : string) (h : ChatHistory) (d : list OracleCall)
    (w : World) : World :=
  {| chat_histories := <[sid := h]> (chat_histories w);
     oracle_log := oracle_log w ++ d |}.

(** The assistant's message of a turn. *)
Definition assistant (text : string) : Message :=
  {| role := "assistant"; content := text |}.

(** The calls a turn can make, for the query [q] and the session object
    [h] (which already holds the user's message). *)
Definition followup_call (q : json) (h : ChatHistory) : OracleCall :=
  is_book_followup_messages q (last_recommended_books h).

Definition criteria_call (q : json) (h : ChatHistory) : OracleCall :=
  is_criteria_followup_messages q (last_query h).

Definition topic_call (q : json) (h : ChatHistory) : OracleCall :=
  analyze_query_messages q (messages h).

Definition criteria_recommend_call (q : json) (h : ChatHistory) : OracleCall :=
  generate_response_messages (last_query h) (messages h) q.

Definition fresh_recommend_call (q : json) (h : ChatHistory) : OracleCall :=
  generate_response_messages q (messages h) JNull.

(** The first guard let the request through, having made the calls [d1]:
    nothing was recommended before, or the oracle matched no book. *)
Inductive followup_pass (q : json) (h : ChatHistory) (l : list OracleCall)
  : list OracleCall -> Prop :=
| followup_skipped :
    last_recommended_books h = [] ->
    followup_pass q h l []
| followup_unmatched o :
    last_recommended_books h <> [] ->
    oracle l (followup_call q h) = Replies o ->
    truthy (followup_value o) = false ->
    followup_pass q h l [followup_call q h].

(** The second guard let the request through: the calls grew from [d1] to
    [d2]. *)
Inductive criteria_pass (q : json) (h : ChatHistory) (l : list OracleCall)
    (d1 : list OracleCall) : list OracleCall -> Prop :=
| criteria_skipped :
    truthy (last_query h) = false ->
    criteria_pass q h l d1 d1
| criteria_denied :
    truthy (last_query h) = true ->
    verdict (oracle (l ++ d1) (criteria_call q h)) = Ret false ->
    criteria_pass q h l d1 (d1 ++ [criteria_call q h]).

(** Every way a turn can go once the user's message is in [h], from the
    world [w] in which the request arrived: the calls made, what the
    dispatch returned or raised, and the session object it left.  The books
    of a recommendation are the ones [generate_response] returns at that
    point of the turn. *)
Inductive turn (q : json) (sid : string) (h : ChatHistory) (w : World)
  : list OracleCall -> Outcome Response -> ChatHistory -> Prop :=
| turn_followup_raised msg :
    last_recommended_books h <> [] ->
    oracle (oracle_log w) (followup_call q h) = Raises msg ->
    turn q sid h w [followup_call q h] (Exc (OracleError msg)) h
| turn_details_unprepared o e :
    last_recommended_books h <> [] ->
    oracle (oracle_log w) (followup_call q h) = Replies o ->
    truthy (followup_value o) = true ->
    turn q sid h w [followup_call q h] (Exc e) h
| turn_details_raised o dc e :
    last_recommended_books h <> [] ->
    oracle (oracle_log w) (followup_call q h) = Replies o ->
    truthy (followup_value o) = true ->
    stage_of dc = Some StDetails ->
    text_of (oracle (oracle_log w ++ [followup_call q h]) dc) = Exc e ->
    turn q sid h w [followup_call q h; dc] (Exc e) h
| turn_details o dc text :
    last_recommended_books h <> [] ->
    oracle (oracle_log w) (followup_call q h) = Replies o ->
    truthy (followup_value o) = true ->
    stage_of dc = Some StDetails ->
    text_of (oracle (oracle_log w ++ [followup_call q h]) dc) = Ret text ->
    turn q sid h w [followup_call q h; dc]
      (Ret (Http200 text None sid)) (add_message (assistant text) h)
| turn_criteria_raised d1 e :
    followup_pass q h (oracle_log w) d1 ->
    truthy (last_query h) = true ->
    verdict (oracle (oracle_log w ++ d1) (criteria_call q h)) = Exc e ->
    turn q sid h w (d1 ++ [criteria_call q h]) (Exc e) h
| turn_criteria d1 out links :
    followup_pass q h (oracle_log w) d1 ->
    truthy (last_query h) = true ->
    verdict (oracle (oracle_log w ++ d1) (criteria_call q h)) = Ret true ->
    Forall is_links links ->
    generate_response oracle (last_query h) (messages h) q
      (turn_world sid h (d1 ++ [criteria_call q h]) w)
    = (Ret out,
       record_calls (criteria_recommend_call q h :: links)
         (turn_world sid h (d1 ++ [criteria_call q h]) w)) ->
    turn q sid h w
      (d1 ++ criteria_call q h :: criteria_recommend_call q h :: links)
      (Ret (Http200 criteria_caption (Some (Book_dict <$> books out)) sid))
      (add_message (assistant criteria_caption)
         (put_books (Book_dict <$> books out) h))
| turn_topic_raised d1 d2 e :
    followup_pass q h (oracle_log w) d1 ->
    criteria_pass q h (oracle_log w) d1 d2 ->
    verdict (oracle (oracle_log w ++ d2) (topic_call q h)) = Exc e ->
    turn q sid h w (d2 ++ [topic_call q h]) (Exc e) h
| turn_rejected d1 d2 :
    followup_pass q h (oracle_log w) d1 ->
    criteria_pass q h (oracle_log w) d1 d2 ->
    verdict (oracle (oracle_log w ++ d2) (topic_call q h)) = Ret false ->
    turn q sid h w (d2 ++ [topic_call q h])
      (Ret (Http200 rejection_text None sid))
      (add_message (assistant rejection_text) h)
| turn_fresh d1 d2 out links :
    followup_pass q h (oracle_log w) d1 ->
    criteria_pass q h (oracle_log w) d1 d2 ->
    verdict (oracle (oracle_log w ++ d2) (topic_call q h)) = Ret true ->
    Forall is_links links ->
    generate_response oracle q (messages h) JNull
      (turn_world sid h (d2 ++ [topic_call q h]) w)
    = (Ret out,
       record_calls (fresh_recommend_call q h :: links)
         (turn_world sid h (d2 ++ [topic_call q h]) w)) ->
    turn q sid h w
      (d2 ++ topic_call q h :: fresh_recommend_call q h :: links)
      (Ret (Http200 fresh_caption (Some (Book_dict <$> books out)) sid))
      (add_message (assistant fresh_caption)
         (put_query q (put_books (Book_dict <$> books out) h))).

(** The content pydantic gives the user's message. *)
Definition user_content (q : json) : option string :=
  match q with
  | JStr s => Some s
  | _ => pydantic_str q
  end.

Definition user (text : string) : Message :=
  {| role := "user"; content := text |}.

(** The session a request is for. *)
Definition session_of (data : Request) : string :=
  default "default" (data_session_id data).



(** What [isinstance(v, (int, float))] accepts; a Python [bool] is an
    [int]. *)
Definition is_number (v : json) : bool :=
  match v with
  | JInt _ | JFloat _ | JBool _ => true
  | _ => false
  end.

(** A dict that has every key [generate_response] asks of a book. *)
Definition has_book_keys (v : json) : bool :=
  match v with
  | JObj d => forallb (fun k => dict_has k d) book_keys
  | _ => false
  end.

(** The state a session keeps between requests is consistent: there is a
    last query exactly when there are last recommended books. *)
Definition consistent (h : ChatHistory) : Prop :=
  truthy (last_query h) = true <-> last_recommended_books h <> [].

(** A dict that has the three keys [get_book_details] reads. *)
Definition has_details_fields (v : json) : bool :=
  match v with
  | JObj d => dict_has "title" d && dict_has "author" d && dict_has "summary" d
  | _ => false
  end.

(** The entries of the ["books"] list of a reply that parses to an object
    holding such a list; none for any other reply. *)
Definition listed_books (rep : Reply) : list json :=
  match rep with
  | Replies (Some s) =>
      match json_loads (str_strip s) with
      | Some (JObj d) =>
          match dict_get "books" d with
          | Some (JArr bs) => bs
          | _ => []
          end
      | _ => []
      end
  | _ => []
  end.

End Specification.

(** ** A run time and oracles for the examples

    ASCII versions of [strip] and [lower], a decoder that knows the JSON
    texts the examples use and the three JSON literals, and a validation
    that accepts the values that already have the type asked for (an [int]
    price is taken as the [float] of the same value). *)
Module Demo.

Definition is_space (a : ascii) : bool :=
  let n := nat_of_ascii a in
  (n =? 32)%nat || ((9 <=? n)%nat && (n <=? 13)%nat).

Fixpoint lstrip (s : string) : string :=
  match s with
  | String a s' => if is_space a then lstrip s' else s
  | EmptyString => EmptyString
  end.

Fixpoint rstrip (s : string) : string :=
  match s with
  | String a s' =>
      match rstrip s' with
      | EmptyString => if is_space a then EmptyString else String a EmptyString
      | t => String a t
      end
  | EmptyString => EmptyString
  end.

Definition strip (s : string) : string := rstrip (lstrip s).

Definition lower_ascii (a : ascii) : ascii :=
  let n := nat_of_ascii a in
  if (65 <=? n)%nat && (n <=? 90)%nat then ascii_of_nat (n + 32) else a.

Fixpoint lower (s : string) : string :=
  match s with
  | String a s' => String (lower_ascii a) (lower s')
  | EmptyString => EmptyString
  end.

(** JSON text is written with ['] for the double quote. *)
Fixpoint json_text (s : string) : string :=
  match s with
  | String a s' =>
      String (if Ascii.eqb a "'"%char then ascii_of_nat 34 else a) (json_text s')
  | EmptyString => EmptyString
  end.

Definition dune : json :=
  JObj [ ("title", JStr "Dune"); ("author", JArr [JStr "Frank Herbert"]);
         ("price", JInt 10); ("summary", JStr "A desert planet.");
         ("purchase_links", JObj []) ].

Definition dune_text : string :=
  json_text "{'title': 'Dune', 'author': ['Frank Herbert'], 'price': 10, 'summary': 'A desert planet.', 'purchase_links': {}}".

Definition one_book : json := JObj [("books", JArr [dune])].

Definition one_book_text : string :=
  json_text "{'books': [{'title': 'Dune', 'author': ['Frank Herbert'], 'price': 10, 'summary': 'A desert planet.', 'purchase_links': {}}]}".

Definition loads_table : list (string * json) :=
  [ ("null", JNull); ("true", JBool true); ("false", JBool false);
    (dune_text, dune); (one_book_text, one_book) ].

Definition strs (v : json) : option (list string) :=
  match v with
  | JArr xs => mapM (fun x => match x with JStr s => Some s | _ => None end) xs
  | _ => None
  end.

Definition str_links (v : json) : option (list (string * string)) :=
  match v with
  | JObj d => mapM (fun kv => match snd kv with
                              | JStr s => Some (fst kv, s)
                              | _ => None
                              end) d
  | _ => None
  end.

Definition validate_book (v : json) : option Book :=
  match v with
  | JObj d =>
      match dict_get "title" d, dict_get "author" d, dict_get "price" d,
            dict_get "summary" d, dict_get "purchase_links" d with
      | Some (JStr t), Some a, Some p, Some (JStr s), Some l =>
          match strs a, p, str_links l with
          | Some a', JFloat f, Some l' => Some (mkBook t a' f s l')
          | Some a', JInt z, Some l' =>
              if ((0 <=? z) && (z <? 1000000))%Z
              then Some (mkBook t a' (PrimFloat.of_uint63 (Uint63.of_Z z)) s l')
              else None
          | _, _, _ => None
          end
      | _, _, _, _, _ => None
      end
  | _ => None
  end.

#[export] Instance lib : PyLib := {|
  json_loads s := snd <$> List.find (fun tv => String.eqb (fst tv) s) loads_table;
  str_strip := strip;
  str_lower := lower;
  float_of_str _ := None;
  pydantic_str _ := None;
  Book_validate := validate_book
|}.

(** The world at start-up. *)
Definition world0 : World := {| chat_histories := ∅; oracle_log := [] |}.

(** An oracle that recommends one book, whatever it is asked, and has no
    links to give. *)
Definition oracle_one_book (_ : list OracleCall) (c : OracleCall) : Reply :=
  match stage_of c with
  | Some StRecommend => Replies (Some one_book_text)
  | _ => Replies (Some "I do not know")
  end.

(** An oracle that is down: every call raises. *)
Definition oracle_down (_ : list OracleCall) (_ : OracleCall) : Reply :=
  Raises "Connection error.".

(** An oracle that finds every query off topic. *)
Definition oracle_off_topic (_ : list OracleCall) (_ : OracleCall) : Reply :=
  Replies (Some "false").

(** An oracle that answers every question about earlier books with the
    details of Dune. *)
Definition oracle_dune (_ : list OracleCall) (_ : OracleCall) : Reply :=
  Replies (Some dune_text).

(** A bookshop oracle: no earlier book is meant, every query is on topic
    and, when there is an earlier query, refines it; one book is
    recommended and no links are known. *)
Definition oracle_shop (_ : list OracleCall) (c : OracleCall) : Reply :=
  match stage_of c with
  | Some StFollowup => Replies (Some "null")
  | Some StCriteria => Replies (Some " True ")
  | Some StTopic => Replies (Some "true")
  | Some StRecommend => Replies (Some one_book_text)
  | _ => Replies (Some "I do not know")
  end.

(** Dune as [generate_response] hands it on: the price a [float], the
    links replaced by the search links. *)
Definition dune_found : json :=
  JObj [ ("title", JStr "Dune"); ("author", JArr [JStr "Frank Herbert"]);
         ("price", JFloat 10%float); ("summary", JStr "A desert planet.");
         ("purchase_links",
          JObj [ ("amazon", JStr "https://www.amazon.it/s?k=dune");
                 ("lafeltrinelli",
                  JStr "https://www.lafeltrinelli.it/search?q=dune") ]) ].

Definition emma : json :=
  JObj [ ("title", JStr "Emma"); ("author", JArr [JStr "Jane Austen"]);
         ("price", JFloat 9.5%float); ("summary", JStr "A matchmaker.");
         ("purchase_links", JObj []) ].

(** Requests. *)
Definition hello : Request :=
  {| data_query := JStr "hello"; data_session_id := None |}.

Definition in_italian : Request :=
  {| data_query := JStr "anything in Italian?"; data_session_id := Some "s1" |}.

Definition empty_query : Request :=
  {| data_query := JStr ""; data_session_id := Some "s1" |}.

(** A world in which session ["s1"] has had one recommendation. *)
Definition world1 : World :=
  {| chat_histories :=
       {[ "s1" := {| messages := [ {| role := "user"; content := "a classic" |};
                                   {| role := "assistant"; content := fresh_caption |} ];
                     last_recommended_books := [emma];
                     last_query := JStr "a classic" |} ]};
     oracle_log := [] |}.

(** The topic call of a first request ["hello"]. *)
Definition hello_topic_call : OracleCall :=
  [ ("system", TopicSystem);
    ("user", Text (JStr "hello"));
    ("user", Text (JStr "hello")) ].

(** Dune as the loop of [generate_response] leaves it: the price still the
    oracle's [int], the links replaced by the search links. *)
Definition dune_processed : json :=
  JObj [ ("title", JStr "Dune"); ("author", JArr [JStr "Frank Herbert"]);
         ("price", JInt 10); ("summary", JStr "A desert planet.");
         ("purchase_links",
          JObj [ ("amazon", JStr "https://www.amazon.it/s?k=dune");
                 ("lafeltrinelli",
                  JStr "https://www.lafeltrinelli.it/search?q=dune") ]) ].

(** A reply that lists Dune and an entry that has only a title. *)
Definition untitled : json := JObj [("title", JStr "Untitled")].

Definition two_books : json := JObj [("books", JArr [dune; untitled])].

Definition two_books_text : string :=
  json_text "{'books': [{'title': 'Dune', 'author': ['Frank Herbert'], 'price': 10, 'summary': 'A desert planet.', 'purchase_links': {}}, {'title': 'Untitled'}]}".

(** The run time of the examples with a decoder that also knows
    [two_books_text]. *)
Definition lib2 : PyLib := {|
  json_loads s :=
    if String.eqb s two_books_text then Some two_books
    else snd <$> List.find (fun tv => String.eqb (fst tv) s) loads_table;
  str_strip := strip;
  str_lower := lower;
  float_of_str _ := None;
  pydantic_str _ := None;
  Book_validate := validate_book
|}.

(** An oracle that lists those two entries. *)
Definition oracle_two_books (_ : list OracleCall) (c : OracleCall) : Reply :=
  match stage_of c with
  | Some StRecommend => Replies (Some two_books_text)
  | _ => Replies (Some "I do not know")
  end.

(** An oracle that answers ["true"] to everything. *)
Definition oracle_yes (_ : list OracleCall) (_ : OracleCall) : Reply :=
  Replies (Some "true").

(** The call [fetch_real_links] makes for Dune. *)
Definition dune_links_call : OracleCall :=
  [("user", LinksUser (JStr "Dune") (JStr "Frank Herbert"))].

End Demo.

(** * Properties *)

Section Properties.

Context {lib : PyLib}.
Variable oracle : list OracleCall -> OracleCall -> Reply.

(** ** Computations that only talk to the oracle *)

Lemma record_calls_nil w : record_calls [] w = w.
Proof. destruct w; unfold record_calls; simpl; by rewrite app_nil_r. Qed.

Lemma record_calls_app cs1 cs2 w :
  record_calls cs2 (record_calls cs1 w) = record_calls (cs1 ++ cs2) w.
Proof. unfold record_calls; simpl; by rewrite app_assoc. Qed.

Lemma record_call_calls c w : record_call c w = record_calls [c] w.
Proof. reflexivity. Qed.

Lemma calls_only_ret {A} P (a : A) : calls_only P (ret a).
Proof. intros w; exists []; by rewrite record_calls_nil. Qed.

Lemma calls_only_raise {A} P e : calls_only P (@raise A e).
Proof. intros w; exists []; by rewrite record_calls_nil. Qed.

Lemma calls_only_bind {A B} P (m : M A) (k : A -> M B) :
  calls_only P m -> (forall a, calls_only P (k a)) -> calls_only P (bind m k).
Proof.
  intros Hm Hk w. destruct (Hm w) as (cs1 & E1 & F1).
  unfold bind. destruct (m w) as [[a|e] w1]; simpl in E1; subst w1.
  - destruct (Hk a (record_calls cs1 w)) as (cs2 & E2 & F2).
    exists (cs1 ++ cs2). rewrite E2, record_calls_app.
    split; [done | by apply Forall_app].
  - by exists cs1.
Qed.

Lemma calls_only_try {A} P (m : M A) (h : exn -> M A) :
  calls_only P m -> (forall e, calls_only P (h e)) -> calls_only P (try_except m h).
Proof.
  intros Hm Hh w. destruct (Hm w) as (cs1 & E1 & F1).
  unfold try_except. destruct (m w) as [[a|e] w1]; simpl in E1; subst w1.
  - by exists cs1.
  - destruct (Hh e (record_calls cs1 w)) as (cs2 & E2 & F2).
    exists (cs1 ++ cs2). rewrite E2, record_calls_app.
    split; [done | by apply Forall_app].
Qed.

Lemma calls_only_create P c : P c -> calls_only P (create oracle c).
Proof.
  intros Hc w. exists [c]. unfold create.
  destruct (oracle (oracle_log w) c); simpl; split; try done;
    by apply Forall_singleton.
Qed.

Lemma calls_only_require P c e : calls_only P (require c e).
Proof. destruct c; [apply calls_only_ret | apply calls_only_raise]. Qed.

Lemma calls_only_subscript P v k : calls_only P (subscript v k).
Proof.
  destruct v; simpl; try apply calls_only_raise.
  destruct (dict_get k kvs); [apply calls_only_ret | apply calls_only_raise].
Qed.

Lemma calls_only_setitem P v k x : calls_only P (setitem v k x).
Proof. destruct v; simpl; try apply calls_only_raise; apply calls_only_ret. Qed.

Lemma calls_only_content_strip P r : calls_only P (content_strip r).
Proof. destruct r; [apply calls_only_ret | apply calls_only_raise]. Qed.

Lemma calls_only_loads P s : calls_only P (loads s).
Proof.
  unfold loads. destruct (json_loads s); [apply calls_only_ret | apply calls_only_raise].
Qed.

Lemma calls_only_all_in P ks v : calls_only P (all_in ks v).
Proof.
  induction ks as [|k ks IH]; simpl; [apply calls_only_ret|].
  apply calls_only_bind.
  - destruct v; simpl; try apply calls_only_raise; apply calls_only_ret.
  - intros [|]; [apply IH | apply calls_only_ret].
Qed.

(** One step of the routine part of such proofs. *)
Ltac calls_step :=
  first [ apply calls_only_ret | apply calls_only_raise
        | apply calls_only_require | apply calls_only_subscript
        | apply calls_only_setitem | apply calls_only_content_strip
        | apply calls_only_loads | apply calls_only_all_in
        | apply calls_only_create; reflexivity
        | apply calls_only_bind; [|intros ?]
        | apply calls_only_try; [|intros ?] ].

Lemma calls_only_fetch_real_links t a :
  calls_only is_links (fetch_real_links oracle t a).
Proof.
  unfold fetch_real_links. repeat calls_step.
  destruct t; calls_step.
Qed.

Lemma calls_only_process_book b :
  calls_only is_links (process_book oracle b).
Proof.
  unfold process_book.
  repeat first [apply calls_only_fetch_real_links | calls_step].
  - case_match; calls_step.
  - repeat case_match; calls_step.
Qed.

Lemma calls_only_process_books bs :
  calls_only is_links (process_books oracle bs).
Proof.
  induction bs as [|b bs IH]; simpl; [calls_step|].
  apply calls_only_bind; [apply calls_only_process_book|intros b'].
  apply calls_only_bind; [apply IH|intros rest]. calls_step.
Qed.

(** The loop yields one processed book per book it was given. *)
Lemma process_books_length bs : forall w l w',
  process_books oracle bs w = (Ret l, w') -> length l = length bs.
Proof.
  induction bs as [|b bs IH]; simpl; intros w l w' E.
  - by inversion E.
  - unfold bind in E.
    destruct (process_book oracle b w) as [[b'|e] w1]; [|done].
    destruct (process_books oracle bs w1) as [[rest|e] w2] eqn:E2; [|done].
    inversion E; subst. simpl. f_equal. eauto.
Qed.

Lemma Output_new_length l out w w' :
  Output_new l w = (Ret out, w') -> length (books out) = length l /\ w' = w.
Proof.
  unfold Output_new. destruct (mapM Book_validate l) as [bs|] eqn:E; [|done].
  intros [= <- <-]. split; [|done]. simpl. symmetry. by eapply length_mapM.
Qed.

(** ** Reading a run backwards *)

Lemma bind_inv {A B} (m : M A) (k : A -> M B) w r w' :
  bind m k w = (r, w') ->
  (exists a w1, m w = (Ret a, w1) /\ k a w1 = (r, w'))
  \/ (exists e, m w = (Exc e, w') /\ r = Exc e).
Proof.
  unfold bind. destruct (m w) as [[a|e] w1]; intros E.
  - left. by exists a, w1.
  - right. exists e. by inversion E.
Qed.

Lemma try_except_inv {A} (m : M A) (h : exn -> M A) w r w' :
  try_except m h w = (r, w') ->
  (exists a, m w = (Ret a, w') /\ r = Ret a)
  \/ (exists e w1, m w = (Exc e, w1) /\ h e w1 = (r, w')).
Proof.
  unfold try_except. destruct (m w) as [[a|e] w1]; intros E.
  - left. exists a. by inversion E.
  - right. by exists e, w1.
Qed.

Lemma create_inv c w r w' :
  create oracle c w = (r, w') ->
  w' = record_call c w
  /\ match oracle (oracle_log w) c with
     | Raises msg => r = Exc (OracleError msg)
     | Replies o => r = Ret o
     end.
Proof.
  unfold create. destruct (oracle (oracle_log w) c); by intros [= <- <-].
Qed.

Lemma content_strip_inv o w r w' :
  content_strip o w = (r, w') ->
  w' = w /\ r = match o with
                | Some s => Ret (str_strip s)
                | None => Exc AttributeError
                end.
Proof. destruct o; by intros [= <- <-]. Qed.

Lemma loads_inv s w r w' :
  loads s w = (r, w') ->
  w' = w /\ r = match json_loads s with
                | Some v => Ret v
                | None => Exc JSONDecodeError
                end.
Proof. unfold loads. destruct (json_loads s); by intros [= <- <-]. Qed.

Lemma require_inv c e w r w' :
  require c e w = (r, w') -> w' = w /\ r = if c then Ret tt else Exc e.
Proof. destruct c; by intros [= <- <-]. Qed.

Lemma subscript_inv v k w r w' :
  subscript v k w = (r, w') ->
  w' = w /\ (forall x, r = Ret x -> exists d, v = JObj d /\ dict_get k d = Some x).
Proof.
  destruct v; simpl; try (intros [= <- <-]; split; [done|]; discriminate).
  destruct (dict_get k kvs) eqn:E; intros [= <- <-]; split; try done.
  intros x [= <-]. by exists kvs.
Qed.

Lemma calls_only_generate_response_parse o :
  calls_only is_links (generate_response_parse oracle o).
Proof.
  unfold generate_response_parse. repeat calls_step.
  repeat case_match;
    first [ by calls_step
          | apply calls_only_bind;
            [ apply calls_only_process_books
            | intros ?; unfold Output_new; case_match; calls_step ] ].
Qed.

(** A reply that [generate_response_parse] accepts is an object with a
    non-empty list of books, and the output has one book for each. *)
Lemma generate_response_parse_ret o w out w' :
  generate_response_parse oracle o w = (Ret out, w') ->
  exists s d bs,
    o = Some s
    /\ json_loads (str_strip s) = Some (JObj d)
    /\ dict_get "books" d = Some (JArr bs)
    /\ bs <> []
    /\ length (books out) = length bs.
Proof.
  unfold generate_response_parse. intros E.
  apply bind_inv in E as [(content & w3 & Es & E)|(e0 & _ & [=])].
  apply content_strip_inv in Es as [-> Hs].
  apply bind_inv in E as [(data & w3 & Ed & E)|(e0 & _ & [=])].
  apply loads_inv in Ed as [-> Hd].
  apply bind_inv in E as [([] & w3 & Er & E)|(e0 & _ & [=])].
  apply require_inv in Er as [-> Hr].
  apply bind_inv in E as [(bs & w3 & Eb & E)|(e0 & _ & [=])].
  apply subscript_inv in Eb as [-> Hb].
  destruct (Hb bs eq_refl) as (d & -> & Hbs).
  destruct bs as [| | | | |[|b bs]|]; try done.
  apply bind_inv in E as [(processed & w3 & Ep & E)|(e0 & _ & [=])].
  apply process_books_length in Ep.
  apply Output_new_length in E as [Len _].
  destruct o as [s|]; [|done]. injection Hs as ->.
  destruct (json_loads (str_strip s)) as [v|] eqn:El; [|done].
  injection Hd as <-.
  exists s, d, (b :: bs). repeat split; try done. congruence.
Qed.

(** What a run of [generate_response] is: it returns, it has made its own
    call and then only calls for links, and its books are the fallback or
    one per book of a usable reply. *)
Lemma generate_response_run query chat_history criteria w :
  let c := generate_response_messages query chat_history criteria in
  exists out links,
    generate_response oracle query chat_history criteria w
    = (Ret out, record_calls (c :: links) w)
    /\ Forall is_links links
    /\ (out = default_books
        \/ exists s d bs,
             oracle (oracle_log w) c = Replies (Some s)
             /\ json_loads (str_strip s) = Some (JObj d)
             /\ dict_get "books" d = Some (JArr bs)
             /\ bs <> []
             /\ length (books out) = length bs).
Proof.
  intros c. unfold generate_response. fold c.
  unfold try_except, bind, create.
  destruct (oracle (oracle_log w) c) as [msg|o] eqn:Eo.
  { exists default_books, []. split; [done|]. split; [constructor|by left]. }
  destruct (calls_only_generate_response_parse o (record_call c w))
    as (links & Ew & Fl).
  destruct (generate_response_parse oracle o (record_call c w))
    as [[out|e] w1] eqn:E; simpl in Ew; subst w1;
    rewrite record_call_calls, record_calls_app; simpl.
  - exists out, links. split; [done|]. split; [done|]. right.
    apply generate_response_parse_ret in E as (s & d & bs & -> & H).
    by exists s, d, bs.
  - exists default_books, links. split; [done|]. split; [done|]. by left.
Qed.

(** C1, as amended: [generate_response] always returns; what it returns
    is the fallback list, of exactly 3 books, or has one book for each
    entry of the non-empty [books] list of an oracle reply that parsed to
    an object.  So it is the fallback whenever the call raised or the
    reply had no content, did not parse or held no such list, and it has
    3 books only when the oracle listed 3. *)
Theorem generate_response_fallback_or_oracle_count
    query chat_history criteria w :
  exists out w',
    generate_response oracle query chat_history criteria w = (Ret out, w')
    /\ length (books default_books) = 3
    /\ (out = default_books
        \/ exists s d bs,
             oracle (oracle_log w)
               (generate_response_messages query chat_history criteria)
             = Replies (Some s)
             /\ json_loads (str_strip s) = Some (JObj d)
             /\ dict_get "books" d = Some (JArr bs)
             /\ bs <> []
             /\ length (books out) = length bs).
Proof.
  destruct (generate_response_run query chat_history criteria w)
    as (out & links & E & _ & H).
  exists out, (record_calls
                 (generate_response_messages query chat_history criteria :: links) w).
  split; [exact E|]. split; [reflexivity|exact H].
Qed.

(** ** The adapter functions in closed form *)

Lemma analyze_query_eq query chat_history w :
  analyze_query oracle query chat_history w
  = (verdict (oracle (oracle_log w) (analyze_query_messages query chat_history)),
     record_call (analyze_query_messages query chat_history) w).
Proof.
  unfold analyze_query, bind, create, verdict.
  by destruct (oracle _ _) as [msg|[s|]].
Qed.

Lemma is_criteria_followup_eq query last_q w :
  is_criteria_followup oracle query last_q w
  = (verdict (oracle (oracle_log w) (is_criteria_followup_messages query last_q)),
     record_call (is_criteria_followup_messages query last_q) w).
Proof.
  unfold is_criteria_followup, bind, create, verdict.
  by destruct (oracle _ _) as [msg|[s|]].
Qed.

Lemma is_book_followup_eq query last_books w :
  last_books <> [] ->
  is_book_followup oracle query last_books w
  = (match oracle (oracle_log w) (is_book_followup_messages query last_books) with
     | Raises msg => Exc (OracleError msg)
     | Replies o => Ret (followup_value o)
     end,
     record_call (is_book_followup_messages query last_books) w).
Proof.
  intros Hne. destruct last_books as [|b bs]; [done|].
  unfold is_book_followup, bind, try_except, create.
  destruct (oracle _ _) as [msg|[s|]]; simpl; try done.
  case_bool_decide; [done|].
  unfold loads. by destruct (json_loads (str_strip s)).
Qed.

Lemma join_check_inv v w r w' : join_check v w = (r, w') -> w' = w.
Proof.
  unfold join_check, require. intros E.
  repeat case_match; by inversion E.
Qed.

Lemma get_book_details_inv book query w r w' :
  get_book_details oracle book query w = (r, w') ->
  (w' = w /\ exists e, r = Exc e)
  \/ (exists dc, stage_of dc = Some StDetails
                /\ w' = record_call dc w
                /\ r = text_of (oracle (oracle_log w) dc)).
Proof.
  unfold get_book_details. intros E.
  apply bind_inv in E as [(t & w1 & E1 & E)|(e & E1 & ->)].
  2: { apply subscript_inv in E1 as [-> _]. left. eauto. }
  apply subscript_inv in E1 as [-> _].
  apply bind_inv in E as [(a & w1 & E1 & E)|(e & E1 & ->)].
  2: { apply subscript_inv in E1 as [-> _]. left. eauto. }
  apply subscript_inv in E1 as [-> _].
  apply bind_inv in E as [([] & w1 & E1 & E)|(e & E1 & ->)].
  2: { apply join_check_inv in E1 as ->. left. eauto. }
  apply join_check_inv in E1 as ->.
  apply bind_inv in E as [(s & w1 & E2 & E)|(e & E2 & ->)].
  2: { apply subscript_inv in E2 as [-> _]. left. eauto. }
  apply subscript_inv in E2 as [-> _].
  right. exists [("system", DetailsSystem t a s query)].
  split; [done|].
  unfold bind, create, text_of in *.
  destruct (oracle _ _) as [msg|[txt|]]; by inversion E.
Qed.

(** ** One turn of the dispatch *)

Lemma chat_history_of_turn sid h d w :
  chat_history_of sid (turn_world sid h d w) = h.
Proof. unfold chat_history_of, turn_world; simpl. by rewrite lookup_insert_eq. Qed.

Lemma record_call_turn c sid h d w :
  record_call c (turn_world sid h d w) = turn_world sid h (d ++ [c]) w.
Proof. unfold record_call, turn_world; simpl. by rewrite app_assoc. Qed.

Lemma record_calls_turn cs sid h d w :
  record_calls cs (turn_world sid h d w) = turn_world sid h (d ++ cs) w.
Proof. unfold record_calls, turn_world; simpl. by rewrite app_assoc. Qed.

Lemma update_turn f sid h d w :
  update_chat_history sid f (turn_world sid h d w)
  = (Ret tt, turn_world sid (f h) d w).
Proof.
  unfold update_chat_history, turn_world; simpl. by rewrite alter_insert_eq.
Qed.

Lemma init_session_turn sid w :
  init_session sid w = (Ret tt, turn_world sid (chat_history_of sid w) [] w).
Proof.
  unfold init_session, chat_history_of, turn_world. destruct w as [m l]; simpl.
  rewrite app_nil_r. destruct (m !! sid) as [h|] eqn:E; simpl; [|done].
  by rewrite insert_id.
Qed.

Lemma chatbot_topic_turn q sid h w d1 d2 r w' :
  followup_pass oracle q h (oracle_log w) d1 ->
  criteria_pass oracle q h (oracle_log w) d1 d2 ->
  chatbot_topic oracle q sid (turn_world sid h d2 w) = (r, w') ->
  exists d h', w' = turn_world sid h' d w /\ turn oracle q sid h w d r h'.
Proof.
  intros H1 H2. unfold chatbot_topic, bind at 1, read_chat_history.
  rewrite chat_history_of_turn. unfold bind at 1.
  rewrite analyze_query_eq, record_call_turn. cbn [oracle_log turn_world].
  fold (topic_call q h).
  destruct (verdict (oracle (oracle_log w ++ d2) (topic_call q h)))
    as [[|]|e] eqn:Ev; cbn [negb].
  - (* on topic: a fresh recommendation *)
    unfold bind at 1. rewrite chat_history_of_turn. unfold bind at 1.
    destruct (generate_response_run q (messages h) JNull
                (turn_world sid h (d2 ++ [topic_call q h]) w))
      as (out & links & Eg & Fl & _).
    rewrite Eg, record_calls_turn.
    unfold set_last_recommended_books, set_last_query, append_message,
      Message_new, ret, bind.
    repeat (rewrite update_turn; cbv beta iota).
    intros [= <- <-]. eexists _, _. split; [reflexivity|].
    rewrite <- app_assoc. by eapply turn_fresh.
  - (* off topic *)
    unfold append_message, Message_new, ret, bind.
    repeat (rewrite update_turn; cbv beta iota).
    intros [= <- <-]. eexists _, _. split; [reflexivity|].
    by eapply turn_rejected.
  - intros [= <- <-]. eexists _, _. split; [reflexivity|].
    by eapply turn_topic_raised.
Qed.

Lemma chatbot_criteria_turn q sid h w d1 r w' :
  followup_pass oracle q h (oracle_log w) d1 ->
  chatbot_criteria oracle q sid (turn_world sid h d1 w) = (r, w') ->
  exists d h', w' = turn_world sid h' d w /\ turn oracle q sid h w d r h'.
Proof.
  intros H1. unfold chatbot_criteria, bind at 1, read_chat_history.
  rewrite chat_history_of_turn. unfold bind at 1.
  destruct (truthy (last_query h)) eqn:Hq.
  2: { unfold ret. apply chatbot_topic_turn with (d1 := d1); [done|].
       by apply criteria_skipped. }
  rewrite is_criteria_followup_eq, record_call_turn. cbn [oracle_log turn_world].
  fold (criteria_call q h).
  destruct (verdict (oracle (oracle_log w ++ d1) (criteria_call q h)))
    as [[|]|e] eqn:Ev.
  - (* the criteria follow-up *)
    unfold bind at 1. rewrite chat_history_of_turn. unfold bind at 1.
    destruct (generate_response_run (last_query h) (messages h) q
                (turn_world sid h (d1 ++ [criteria_call q h]) w))
      as (out & links & Eg & Fl & _).
    rewrite Eg, record_calls_turn.
    unfold set_last_recommended_books, append_message, Message_new, ret, bind.
    repeat (rewrite update_turn; cbv beta iota).
    intros [= <- <-]. eexists _, _. split; [reflexivity|].
    rewrite <- app_assoc. by eapply turn_criteria.
  - apply chatbot_topic_turn with (d1 := d1); [done|].
    by apply criteria_denied.
  - intros [= <- <-]. eexists _, _. split; [reflexivity|].
    by eapply turn_criteria_raised.
Qed.

Lemma chatbot_followup_turn q sid h w r w' :
  chatbot_followup oracle q sid (turn_world sid h [] w) = (r, w') ->
  exists d h', w' = turn_world sid h' d w /\ turn oracle q sid h w d r h'.
Proof.
  unfold chatbot_followup, bind at 1, read_chat_history.
  rewrite chat_history_of_turn.
  destruct (last_recommended_books h) as [|b bs] eqn:Hb.
  { apply chatbot_criteria_turn. by apply followup_skipped. }
  rewrite <- Hb. assert (Hne : last_recommended_books h <> []) by by rewrite Hb.
  unfold bind at 1. rewrite is_book_followup_eq, record_call_turn by done.
  cbn [oracle_log turn_world app]. rewrite app_nil_r. fold (followup_call q h).
  destruct (oracle (oracle_log w) (followup_call q h)) as [msg|o] eqn:Eo.
  { intros [= <- <-]. eexists _, _. split; [reflexivity|].
    by eapply turn_followup_raised. }
  destruct (truthy (followup_value o)) eqn:Hv.
  2: { apply chatbot_criteria_turn. by eapply followup_unmatched. }
  unfold bind at 1.
  destruct (get_book_details oracle (followup_value o) q
              (turn_world sid h [followup_call q h] w)) as [rd wd] eqn:Ed.
  apply get_book_details_inv in Ed as [[-> [e ->]]|(dc & Hdc & -> & ->)].
  { intros [= <- <-]. eexists _, _. split; [reflexivity|].
    by eapply turn_details_unprepared. }
  rewrite record_call_turn. cbn [oracle_log turn_world].
  destruct (text_of (oracle (oracle_log w ++ [followup_call q h]) dc))
    as [text|e] eqn:Et.
  - unfold append_message, Message_new, ret, bind.
    repeat (rewrite update_turn; cbv beta iota).
    intros [= <- <-]. eexists _, _. split; [reflexivity|].
    by eapply turn_details.
  - intros [= <- <-]. eexists _, _. split; [reflexivity|].
    by eapply turn_details_raised.
Qed.

(** Every way a request can go. *)
Lemma chatbot_run data w r w' :
  chatbot oracle data w = (r, w') ->
  let q := data_query data in
  let sid := session_of data in
  let h0 := chat_history_of sid w in
  (truthy q = false /\ r = Ret (Http400 "No query provided") /\ w' = w)
  \/ (truthy q = true /\ user_content q = None
      /\ r = Ret (Http500 ValidationError) /\ w' = turn_world sid h0 [] w)
  \/ (truthy q = true
      /\ exists text d ro h',
           user_content q = Some text
           /\ turn oracle q sid (add_message (user text) h0) w d ro h'
           /\ w' = turn_world sid h' d w
           /\ r = Ret (match ro with Ret resp => resp | Exc e => Http500 e end)).
Proof.
  intros E q sid h0. unfold chatbot, try_except in E.
  change (default "default" (data_session_id data)) with sid in E.
  fold q in E.
  destruct (truthy q) eqn:Hq; cbn [negb] in E.
  2: { left. by inversion E. }
  right. unfold bind at 1 in E. rewrite init_session_turn in E. fold h0 in E.
  unfold bind at 1 in E.
  assert (Hm : Message_new "user" q (turn_world sid h0 [] w)
               = (match user_content q with
                  | Some text => Ret (user text)
                  | None => Exc ValidationError
                  end, turn_world sid h0 [] w)).
  { unfold Message_new, user_content. destruct q; try done;
      by destruct (pydantic_str _). }
  rewrite Hm in E. destruct (user_content q) as [text|] eqn:Hu.
  2: { left. by inversion E. }
  right. split; [done|].
  unfold append_message, bind at 1 in E. rewrite update_turn in E.
  destruct (chatbot_followup oracle q sid
              (turn_world sid (add_message (user text) h0) [] w))
    as [ro w1] eqn:Ef.
  apply chatbot_followup_turn in Ef as (d & h' & -> & Ht).
  simpl in E.
  exists text, d, ro, h'. split; [done|]. split; [done|].
  destruct ro; by inversion E.
Qed.

(** ** Finding a call in the calls of a turn *)

Lemma stage_of_followup_call q h : stage_of (followup_call q h) = Some StFollowup.
Proof. reflexivity. Qed.

Lemma stage_of_criteria_call q h : stage_of (criteria_call q h) = Some StCriteria.
Proof. reflexivity. Qed.

Lemma stage_of_topic_call q h : stage_of (topic_call q h) = Some StTopic.
Proof. reflexivity. Qed.

Lemma stage_of_criteria_recommend_call q h :
  stage_of (criteria_recommend_call q h) = Some StRecommend.
Proof. reflexivity. Qed.

Lemma stage_of_fresh_recommend_call q h :
  stage_of (fresh_recommend_call q h) = Some StRecommend.
Proof. reflexivity. Qed.

Lemma cons_split {A} (x : A) xs pre c rest :
  x :: xs = pre ++ c :: rest ->
  (pre = [] /\ c = x /\ rest = xs)
  \/ (exists pre', pre = x :: pre' /\ xs = pre' ++ c :: rest).
Proof.
  destruct pre as [|y pre]; simpl; intros [= -> ->]; [by left|].
  right. by exists pre.
Qed.

Lemma nil_split {A} (pre : list A) c rest : [] = pre ++ c :: rest -> False.
Proof. by destruct pre. Qed.

Lemma links_split links pre c rest :
  Forall is_links links -> links = pre ++ c :: rest -> stage_of c = Some StLinks.
Proof.
  intros F ->. apply Forall_app in F as [_ F]. by inversion F.
Qed.

Lemma log_split (l d pre : list OracleCall) c rest :
  l ++ d = l ++ pre ++ c :: rest -> d = pre ++ c :: rest.
Proof. apply app_inv_head. Qed.

Lemma log_split_none (l pre : list OracleCall) c rest :
  l = l ++ pre ++ c :: rest -> False.
Proof.
  intros E. apply (f_equal length) in E.
  rewrite !length_app in E. simpl in E. lia.
Qed.

(** Enumerate where [c] can sit in an explicit list of calls. *)
Ltac split_calls H :=
  lazymatch type of H with
  | [] = _ ++ _ :: _ => exfalso; exact (nil_split _ _ _ H)
  | _ :: _ = _ ++ _ :: _ =>
      let pre' := fresh "pre" in
      apply cons_split in H as [(-> & -> & ->) | (pre' & -> & H)];
      [ | split_calls H ]
  | _ = _ ++ _ :: _ => eapply links_split in H; [|eassumption]
  end.

(** Open up the two passes and bring the calls of the turn to an explicit
    list. *)
Ltac open_passes :=
  repeat match goal with
         | H : criteria_pass _ _ _ _ _ _ |- _ => inversion H; clear H; subst
         | H : followup_pass _ _ _ _ _ |- _ => inversion H; clear H; subst
         end;
  cbn [app] in *.


(** C10: a request whose [query] is falsy (absent, [None], the empty
    string, [0], [False], an empty list or dict) gets 400 with the error
    ["No query provided"], and the world is exactly what it was: no session
    is created or changed and the oracle is not called. *)
Theorem falsy_query_is_rejected_untouched data w :
  truthy (data_query data) = false ->
  chatbot oracle data w = (Ret (Http400 "No query provided"), w).
Proof.
  intros Hq. unfold chatbot, try_except. by rewrite Hq.
Qed.

(** C4: a call that returns 200 leaves the session's messages as they were
    before plus two: the user's message for the incoming query, then the
    assistant's message carrying the response text.  A call answered 400
    leaves the world, and so every session's messages, unchanged. *)
Theorem messages_grow_by_user_then_assistant data w resp w' :
  chatbot oracle data w = (Ret resp, w') ->
  let sid := session_of data in
  (forall text bs s,
      resp = Http200 text bs s ->
      exists query_text,
        user_content (data_query data) = Some query_text
        /\ messages (chat_history_of sid w')
           = messages (chat_history_of sid w) ++ [user query_text; assistant text])
  /\ (forall err, resp = Http400 err -> w' = w).
Proof.
  intros E sid.
  apply chatbot_run in E
    as [(_ & Hr & ->)|[(_ & _ & Hr & ->)|(_ & text & d & ro & h' & Hu & Ht & -> & Hr)]].
  - injection Hr as ->. split; [discriminate|done].
  - injection Hr as ->. split; discriminate.
  - fold sid in Ht |- *. split.
    + intros t bs s ->. exists text. split; [done|].
      rewrite chat_history_of_turn.
      revert Hr. destruct Ht; intros [= ]; subst; simpl; by rewrite <- app_assoc.
    + intros err ->. revert Hr. by destruct Ht.
Qed.

(** C8: [is_book_followup] with no books returns [None] at once, the world
    untouched; and a request for a session whose [last_recommended_books]
    is empty makes no call of [is_book_followup]'s at all. *)
Theorem no_followup_call_without_books data w r w' :
  chatbot oracle data w = (r, w') ->
  last_recommended_books (chat_history_of (session_of data) w) = [] ->
  (forall q w0, is_book_followup oracle q [] w0 = (Ret JNull, w0))
  /\ exists d, oracle_log w' = oracle_log w ++ d
               /\ Forall (fun c => stage_of c <> Some StFollowup) d.
Proof.
  intros E Hb. split; [done|].
  assert (Hl : forall links, Forall is_links links ->
                 Forall (fun c => stage_of c <> Some StFollowup) links).
  { intros links F. eapply Forall_impl; [exact F|].
    unfold is_links. congruence. }
  apply chatbot_run in E
    as [(_ & _ & ->)|[(_ & _ & _ & ->)|(_ & text & d & ro & h' & _ & Ht & -> & _)]].
  - exists []. by rewrite app_nil_r.
  - by exists [].
  - exists d. split; [done|].
    destruct Ht; open_passes; simpl in *; try congruence;
      repeat (apply Forall_cons; split; [discriminate|]); auto.
Qed.

(** C2, as amended: the handler always returns a response.  When a call to
    the oracle outside [generate_response] raises, the response is 500 with
    that error, and the session is left as before the request except for
    the user's message, which stays appended (no assistant message follows
    it); the last recommended books and the last query are unchanged. *)
Theorem uncaught_oracle_failure_keeps_user_message data w r w' :
  chatbot oracle data w = (r, w') ->
  let sid := session_of data in
  exists resp,
    r = Ret resp
    /\ forall pre c rest msg,
         oracle_log w' = oracle_log w ++ pre ++ c :: rest ->
         oracle (oracle_log w ++ pre) c = Raises msg ->
         stage_of c <> Some StRecommend ->
         stage_of c <> Some StLinks ->
         resp = Http500 (OracleError msg)
         /\ exists query_text,
              user_content (data_query data) = Some query_text
              /\ messages (chat_history_of sid w')
                 = messages (chat_history_of sid w) ++ [user query_text]
              /\ last_recommended_books (chat_history_of sid w')
                 = last_recommended_books (chat_history_of sid w)
              /\ last_query (chat_history_of sid w')
                 = last_query (chat_history_of sid w).
Proof.
  intros E sid.
  apply chatbot_run in E
    as [(_ & -> & ->)|[(_ & _ & -> & ->)|(_ & text & d & ro & h' & Hu & Ht & -> & ->)]].
  - eexists; split; [done|]. intros pre c rest msg Hlog.
    by apply log_split_none in Hlog.
  - eexists; split; [done|]. intros pre c rest msg Hlog.
    simpl in Hlog. rewrite app_nil_r in Hlog. by apply log_split_none in Hlog.
  - fold sid in Ht |- *. eexists; split; [done|].
    intros pre c rest msg Hlog Ho Hnr Hnl.
    simpl in Hlog. apply log_split in Hlog. rewrite chat_history_of_turn.
    assert (Hv : verdict (oracle (oracle_log w ++ pre) c) = Exc (OracleError msg))
      by by rewrite Ho.
    assert (Ht' : text_of (oracle (oracle_log w ++ pre) c) = Exc (OracleError msg))
      by by rewrite Ho.
    revert Hlog.
    destruct Ht; intros Hlog; open_passes; split_calls Hlog;
      try rewrite app_nil_r in *; try congruence;
      try (exfalso; apply Hnr; reflexivity).
    all: split; [congruence|]; exists text; done.
Qed.








(** C9, as amended: for a non-empty [last_books], [is_book_followup] raises
    only when the call to the oracle raises; otherwise it returns [None] or
    the value the stripped reply parses to, whatever that value is (no
    check relates it to [last_books]), and it returns [None] whenever the
    reply has no content, does not parse, or is ["null"] in any letter
    case. *)
Theorem is_book_followup_null_or_parsed query last_books w r w' :
  last_books <> [] ->
  is_book_followup oracle query last_books w = (r, w') ->
  match oracle (oracle_log w) (is_book_followup_messages query last_books) with
  | Raises msg => r = Exc (OracleError msg)
  | Replies None => r = Ret JNull
  | Replies (Some s) =>
      (r = Ret JNull \/ exists v, json_loads (str_strip s) = Some v /\ r = Ret v)
      /\ (json_loads (str_strip s) = None -> r = Ret JNull)
      /\ (str_lower (str_strip s) = "null" -> r = Ret JNull)
  end.
Proof.
  intros Hne E. rewrite is_book_followup_eq in E by done.
  injection E as <- _.
  destruct (oracle _ _) as [msg|[s|]]; try done.
  unfold followup_value. case_bool_decide as Hnull.
  - by repeat split; [left|..].
  - destruct (json_loads (str_strip s)) as [v|] eqn:El; simpl.
    + split; [right; by exists v|]. by split.
    + by repeat split; [left|..].
Qed.

(** ** Further properties: the search for JSON in a reply *)

Lemma find_from_absent c s i :
  (0 <= i)%Z -> find_from c s i = (-1)%Z -> forall j, find_from c s j = (-1)%Z.
Proof.
  revert i. induction s as [|a s IH]; simpl; intros i Hi H j; [done|].
  destruct (Ascii.eqb a c); [lia|]. apply (IH (i + 1)%Z); [lia|done].
Qed.

Lemma find_from_range c s i :
  (0 <= i)%Z -> find_from c s i = (-1)%Z \/ (i <= find_from c s i)%Z.
Proof.
  revert i. induction s as [|a s IH]; simpl; intros i Hi; [by left|].
  destruct (Ascii.eqb a c); [right; lia|].
  destruct (IH (i + 1)%Z) as [H|H]; [lia|by left|right; lia].
Qed.

Lemma find_from_first c p rest i :
  (0 <= i)%Z -> str_find c p = (-1)%Z ->
  find_from c (p ++ String c rest)%string i = (i + Z.of_nat (String.length p))%Z.
Proof.
  unfold str_find. revert i.
  induction p as [|a p IH]; simpl; intros i Hi H.
  - rewrite Ascii.eqb_refl. lia.
  - destruct (Ascii.eqb a c); [lia|].
    rewrite IH; [lia|lia|]. by apply (find_from_absent c p 1%Z).
Qed.

Lemma rfind_from_absent c s :
  str_find c s = (-1)%Z -> forall i found, rfind_from c s i found = found.
Proof.
  unfold str_find. induction s as [|a s IH]; simpl; intros H i found; [done|].
  destruct (Ascii.eqb a c); [lia|].
  apply IH. by apply (find_from_absent c s 1%Z).
Qed.

Lemma rfind_from_last c p suf i found :
  str_find c suf = (-1)%Z ->
  rfind_from c (p ++ String c suf)%string i found
  = (i + Z.of_nat (String.length p))%Z.
Proof.
  intros Hs. revert i found.
  induction p as [|a p IH]; simpl; intros i found.
  - rewrite Ascii.eqb_refl, rfind_from_absent by done. lia.
  - rewrite IH. lia.
Qed.

Lemma substring_skip p s m :
  String.substring (String.length p) m (p ++ s)%string = String.substring 0 m s.
Proof. induction p as [|a p IH]; simpl; done. Qed.

Lemma substring_prefix s t :
  String.substring 0 (String.length s) (s ++ t)%string = s.
Proof.
  induction s as [|a s IH]; simpl; [by destruct t|]. by rewrite IH.
Qed.

Lemma substring_none n s : String.substring n 0 s = EmptyString.
Proof.
  revert s. induction n as [|n IH]; intros [|a s]; simpl; auto.
Qed.

Lemma append_cons a (s t : string) :
  (String a s ++ t)%string = String a (s ++ t)%string.
Proof. reflexivity. Qed.

Lemma length_append (s t : string) :
  String.length (s ++ t)%string = String.length s + String.length t.
Proof.
  induction s as [|a s IH]; [done|]. rewrite append_cons. simpl. by rewrite IH.
Qed.

Lemma append_assoc (s t u : string) :
  ((s ++ t) ++ u)%string = (s ++ (t ++ u))%string.
Proof.
  induction s as [|a s IH]; [done|]. rewrite !append_cons. by rewrite IH.
Qed.

(** X1: a JSON object embedded in prose is cut out whole: with no opening
    brace before it and no closing brace after it, [extract_json] returns
    the text from the first opening brace to the last closing brace. *)
Theorem extract_json_cuts_out_object before body after :
  str_find "{"%char before = (-1)%Z ->
  str_find "}"%char after = (-1)%Z ->
  extract_json (before ++ "{" ++ body ++ "}" ++ after)%string
  = ("{" ++ body ++ "}")%string.
Proof.
  intros Hb Ha. unfold extract_json, str_find, str_rfind, str_slice.
  change (before ++ "{" ++ body ++ "}" ++ after)%string
    with (before ++ String "{"%char (body ++ String "}"%char after))%string.
  rewrite find_from_first by (done || lia).
  replace (before ++ String "{" (body ++ String "}" after))%string
    with ((before ++ String "{"%char body) ++ String "}"%char after)%string
    by (rewrite append_assoc; done).
  rewrite rfind_from_last by done.
  rewrite length_append. simpl String.length.
  destruct (Z.eqb_spec (0 + Z.of_nat (String.length before)) (-1)); [lia|].
  destruct (Z.eqb_spec
              (0 + Z.of_nat (String.length before + S (String.length body)) + 1)
              (-1)); [lia|].
  simpl negb. cbv [andb].
  replace (Z.to_nat (0 + Z.of_nat (String.length before)))
    with (String.length before) by lia.
  replace (Z.to_nat (0 + Z.of_nat (String.length before + S (String.length body)) + 1
                     - (0 + Z.of_nat (String.length before))))
    with (String.length (String "{"%char body ++ "}")%string)
    by (rewrite length_append; simpl; lia).
  rewrite append_assoc, substring_skip.
  replace (String "{"%char body ++ String "}"%char after)%string
    with ((String "{"%char body ++ "}") ++ after)%string
    by (rewrite append_assoc; reflexivity).
  exact (substring_prefix _ _).
Qed.

(** X2: the edges of the search: a reply with no opening brace is parsed as
    it is, and a reply with an opening brace but no closing brace is cut
    down to the empty string (which no JSON parser accepts). *)
Theorem extract_json_without_braces content :
  (str_find "{"%char content = (-1)%Z -> extract_json content = content)
  /\ (str_find "{"%char content <> (-1)%Z ->
      str_find "}"%char content = (-1)%Z ->
      extract_json content = EmptyString).
Proof.
  unfold extract_json. split.
  - intros ->. reflexivity.
  - intros Ho Hc. unfold str_rfind. rewrite rfind_from_absent by done.
    destruct (Z.eqb_spec (str_find "{" content) (-1)); [done|]. simpl.
    unfold str_slice.
    destruct (find_from_range "{"%char content 0%Z) as [H|H]; [lia|done|].
    fold (str_find "{"%char content) in H.
    replace (Z.to_nat (-1 + 1 - str_find "{" content)) with 0 by lia.
    apply substring_none.
Qed.

(** ** Further properties: the adapter functions *)

Lemma search_links_has_both title_url :
  exists d, search_links title_url = JObj d
            /\ dict_has "amazon" d = true /\ dict_has "lafeltrinelli" d = true.
Proof. eexists. split; [reflexivity|]. split; reflexivity. Qed.

(** Every run of [fetch_real_links]. *)
Lemma fetch_real_links_inv t a w r w' :
  fetch_real_links oracle t a w = (r, w') ->
  let c := [("user", LinksUser t a)] in
  w' = record_call c w
  /\ match oracle (oracle_log w) c with
     | Raises msg => r = Exc (OracleError msg)
     | Replies _ =>
         (exists d, r = Ret (JObj d)
                    /\ dict_has "amazon" d = true
                    /\ dict_has "lafeltrinelli" d = true)
         \/ (r = Exc AttributeError /\ forall s, t <> JStr s)
     end.
Proof.
  intros E c. unfold fetch_real_links in E. fold c in E.
  apply bind_inv in E as [(o & w1 & Ec & E)|(e & Ec & ->)];
    apply create_inv in Ec as [-> Ho];
    destruct (oracle (oracle_log w) c) as [msg|o']; try done.
  2: { split; [done|]. by injection Ho as ->. }
  apply try_except_inv in E as [(links & E & ->)|(e & w2 & E & Eh)].
  - apply bind_inv in E as [(content & w3 & Es & E)|(e0 & _ & [=])].
    apply content_strip_inv in Es as [-> _].
    apply bind_inv in E as [(v & w4 & El & E)|(e0 & _ & [=])].
    apply loads_inv in El as [-> _].
    apply bind_inv in E as [([] & w5 & Er & E)|(e0 & _ & [=])].
    apply require_inv in Er as [-> Hr]. injection E as <- <-.
    split; [done|]. left.
    destruct v; try done. case_match; [|done].
    exists kvs. by apply andb_prop in H as [? ?].
  - assert (w2 = record_call c w) as ->.
    { apply bind_inv in E as [(content & w3 & Es & E)|(e0 & Es & _)];
        apply content_strip_inv in Es as [<- _]; [|done].
      apply bind_inv in E as [(v & w4 & El & E)|(e0 & El & _)];
        apply loads_inv in El as [<- _]; [|done].
      apply bind_inv in E as [([] & w5 & Er & E)|(e0 & Er & _)];
        apply require_inv in Er as [<- _]; [|done].
      by injection E. }
    destruct t; try (injection Eh as <- <-; split; [done|]; right; by split).
    injection Eh as <- <-. split; [done|]. left.
    destruct (search_links_has_both (replace_space_plus (str_lower s)))
      as (d & -> & H). by exists d.
Qed.

(** X3: [fetch_real_links] makes exactly one call to the oracle, and
    whatever it returns is a dict that has both an ["amazon"] and a
    ["lafeltrinelli"] entry: the oracle's links when its reply holds a JSON
    object with both keys, the search links otherwise. *)
Theorem fetch_real_links_returns_both_links t a w links w' :
  fetch_real_links oracle t a w = (Ret links, w') ->
  oracle_log w' = oracle_log w ++ [[("user", LinksUser t a)]]
  /\ chat_histories w' = chat_histories w
  /\ exists d, links = JObj d
               /\ dict_has "amazon" d = true
               /\ dict_has "lafeltrinelli" d = true.
Proof.
  intros E. apply fetch_real_links_inv in E as [-> H].
  split; [done|]. split; [done|].
  destruct (oracle _ _); [done|].
  destruct H as [(d & [= ->] & H)|[[=] _]]. by exists d.
Qed.

(** X4: for a title that is a string, [fetch_real_links] fails only when
    the call to the oracle itself raises; a reply without content, without
    JSON or without both links is covered by the search links. *)
Theorem fetch_real_links_fails_only_with_the_call title a w r w' :
  fetch_real_links oracle (JStr title) a w = (r, w') ->
  match oracle (oracle_log w) [("user", LinksUser (JStr title) a)] with
  | Raises msg => r = Exc (OracleError msg)
  | Replies _ => exists links, r = Ret links
  end.
Proof.
  intros E. apply fetch_real_links_inv in E as [_ H].
  destruct (oracle _ _); [done|].
  destruct H as [(d & -> & _)|[_ H]]; [by eexists|].
  by destruct (H title).
Qed.

Lemma get_book_details_unprepared book query w :
  has_details_fields book = false ->
  exists e, get_book_details oracle book query w = (Exc e, w).
Proof.
  intros H. unfold has_details_fields, get_book_details, bind, subscript, dict_has in *.
  destruct book as [| | | | | |d]; try (eexists; reflexivity).
  destruct (dict_get "title" d); [|eexists; reflexivity].
  destruct (dict_get "author" d) as [a|]; [|eexists; reflexivity].
  unfold ret at 1 2. cbv beta iota.
  destruct (join_check a w) as [[[]|e] w1] eqn:Ej;
    apply join_check_inv in Ej as Hw; subst w1; [|eexists; reflexivity].
  destruct (dict_get "summary" d); [done|eexists; reflexivity].
Qed.

(** X5: [get_book_details] asks the oracle nothing about a value that is
    not a dict holding ["title"], ["author"] and ["summary"]: it raises and
    leaves the world as it was. *)
Theorem get_book_details_needs_the_fields book query w :
  has_details_fields book = false ->
  exists e, get_book_details oracle book query w = (Exc e, w).
Proof. apply get_book_details_unprepared. Qed.


(** ** Further properties: the books of a recommendation *)

Lemma dict_get_set_eq k v d : dict_get k (dict_set k v d) = Some v.
Proof.
  induction d as [|[k' v'] d IH]; simpl.
  - by rewrite bool_decide_eq_true_2.
  - case_bool_decide as Hk; simpl.
    + by rewrite bool_decide_eq_true_2.
    + by rewrite bool_decide_eq_false_2.
Qed.

Lemma dict_get_set_ne k k' v d :
  k <> k' -> dict_get k' (dict_set k v d) = dict_get k' d.
Proof.
  intros Hne. induction d as [|[k0 v0] d IH]; simpl.
  - by rewrite bool_decide_eq_false_2.
  - case_bool_decide as Hk; simpl.
    + subst k0. by rewrite !bool_decide_eq_false_2.
    + case_bool_decide; [done|apply IH].
Qed.

Lemma all_in_inv ks v w r w' : all_in ks v w = (r, w') -> w' = w.
Proof.
  revert w r w'. induction ks as [|k ks IH]; simpl; intros w r w' E.
  - by injection E.
  - apply bind_inv in E as [(b & w1 & E1 & E)|(e & E1 & _)].
    + assert (w1 = w) as ->
        by (destruct v; simpl in E1; by injection E1).
      destruct b; [by eapply IH|by injection E].
    + destruct v; simpl in E1; by injection E1.
Qed.

Lemma all_in_dict ks d w :
  all_in ks (JObj d) w = (Ret (forallb (fun k => dict_has k d) ks), w).
Proof.
  induction ks as [|k ks IH]; simpl; [done|].
  unfold bind, ret. destruct (dict_has k d); simpl; [apply IH|done].
Qed.

Lemma setitem_inv v k x w r w' :
  setitem v k x w = (r, w') ->
  w' = w /\ forall v', r = Ret v' -> exists d, v = JObj d /\ v' = JObj (dict_set k x d).
Proof.
  destruct v; simpl; intros [= <- <-]; (split; [done|]); try discriminate.
  intros v' [= <-]. by eexists.
Qed.

(** X7: a book that comes out of the loop of [generate_response] is a dict
    whose ["author"] is a list, whose ["price"] is a number and whose
    ["purchase_links"] is the dict with both links that [fetch_real_links]
    returned; its ["title"] and ["summary"] are the oracle's. *)
Theorem process_book_normalises book w book' w' :
  process_book oracle book w = (Ret book', w') ->
  exists d d',
    book = JObj d /\ book' = JObj d'
    /\ (exists xs, dict_get "author" d' = Some (JArr xs))
    /\ (exists p, dict_get "price" d' = Some p /\ is_number p = true)
    /\ (exists l, dict_get "purchase_links" d' = Some (JObj l)
                  /\ dict_has "amazon" l = true
                  /\ dict_has "lafeltrinelli" l = true)
    /\ dict_get "title" d' = dict_get "title" d
    /\ dict_get "summary" d' = dict_get "summary" d.
Proof.
  unfold process_book. intros E.
  apply bind_inv in E as [(ok & w1 & _ & E)|(e0 & _ & [=])].
  apply bind_inv in E as [([] & w2 & _ & E)|(e0 & _ & [=])].
  apply bind_inv in E as [(a & w3 & Ea & E)|(e0 & _ & [=])].
  apply subscript_inv in Ea as [-> Ha].
  destruct (Ha a eq_refl) as (d & -> & Hda). clear Ha.
  apply bind_inv in E as [(book1 & w4 & E1 & E)|(e0 & _ & [=])].
  assert (H1 : exists d1, book1 = JObj d1
                /\ (exists xs, dict_get "author" d1 = Some (JArr xs))
                /\ dict_get "price" d1 = dict_get "price" d
                /\ dict_get "title" d1 = dict_get "title" d
                /\ dict_get "summary" d1 = dict_get "summary" d).
  { destruct (is_list a) eqn:Hl.
    - injection E1 as <- _. exists d. destruct a; try done.
      repeat split; try done. by eexists.
    - injection E1 as <- _. eexists. split; [done|].
      rewrite dict_get_set_eq, !dict_get_set_ne by done.
      repeat split; try done. by eexists. }
  destruct H1 as (d1 & -> & Hau1 & Hp1 & Ht1 & Hs1). clear E1.
  apply bind_inv in E as [(p & w5 & Ep & E)|(e0 & _ & [=])].
  apply subscript_inv in Ep as [-> Hp].
  destruct (Hp p eq_refl) as (d1' & [= <-] & Hdp). clear Hp.
  apply bind_inv in E as [(book2 & w6 & E2 & E)|(e0 & _ & [=])].
  assert (H2 : exists d2, book2 = JObj d2
                /\ (exists xs, dict_get "author" d2 = Some (JArr xs))
                /\ (exists p2, dict_get "price" d2 = Some p2 /\ is_number p2 = true)
                /\ dict_get "title" d2 = dict_get "title" d
                /\ dict_get "summary" d2 = dict_get "summary" d).
  { destruct p; try done.
    1-3: injection E2 as <- _; exists d1; repeat split; try done; by eexists.
    destruct (float_of_str s) as [f|]; [|done].
    injection E2 as <- _. eexists. split; [done|].
    rewrite dict_get_set_eq, !dict_get_set_ne by done.
    repeat split; try done. by eexists. }
  destruct H2 as (d2 & -> & Hau2 & Hp2 & Ht2 & Hs2). clear E2.
  apply bind_inv in E as [(t & w7 & _ & E)|(e0 & _ & [=])].
  apply bind_inv in E as [(a' & w8 & _ & E)|(e0 & _ & [=])].
  apply bind_inv in E as [(links & w9 & El & E)|(e0 & _ & [=])].
  apply fetch_real_links_inv in El as [_ Hl].
  destruct (oracle _ _); [done|].
  destruct Hl as [(l & [= ->] & Hl)|[[=] _]].
  injection E as <- _.
  exists d, (dict_set "purchase_links" (JObj l) d2). split; [done|]. split; [done|].
  rewrite dict_get_set_eq, !dict_get_set_ne by done.
  repeat split; try done. by exists l.
Qed.

Lemma process_book_rejects book w :
  has_book_keys book = false ->
  exists e w', process_book oracle book w = (Exc e, w').
Proof.
  intros H. unfold process_book, bind.
  destruct book as [| | | | |xs|d]; try (by eexists _, _).
  - destruct (all_in book_keys (JStr s) w) as [[[|]|e] w1]; by eexists _, _.
  - destruct (all_in book_keys (JArr xs) w) as [[[|]|e] w1]; by eexists _, _.
  - rewrite all_in_dict. unfold has_book_keys in H. rewrite H. by eexists _, _.
Qed.

Lemma process_books_rejects bs b :
  In b bs -> has_book_keys b = false ->
  forall w, exists e w', process_books oracle bs w = (Exc e, w').
Proof.
  intros Hin Hb. induction bs as [|b0 bs IH]; [done|]. intros w.
  simpl. unfold bind.
  destruct (process_book oracle b0 w) as [[b0'|e] w1] eqn:E0; [|by eexists _, _].
  destruct Hin as [->|Hin].
  - destruct (process_book_rejects b w Hb) as (e & w' & E). congruence.
  - destruct (IH Hin w1) as (e & w' & ->). by eexists _, _.
Qed.

(** X8: one bad entry discards the whole list: when any entry of the
    oracle's ["books"] is not a dict with all five keys, [generate_response]
    returns the fallback books, whatever the other entries are. *)
Theorem generate_response_one_bad_entry_discards_all
    query chat_history criteria w s d bs b :
  oracle (oracle_log w) (generate_response_messages query chat_history criteria)
  = Replies (Some s) ->
  json_loads (str_strip s) = Some (JObj d) ->
  dict_get "books" d = Some (JArr bs) ->
  In b bs ->
  has_book_keys b = false ->
  (generate_response oracle query chat_history criteria w).1 = Ret default_books.
Proof.
  intros Ho Hl Hd Hin Hb.
  unfold generate_response, try_except, bind at 1, create. rewrite Ho.
  unfold generate_response_parse, bind at 1; simpl content_strip. unfold ret at 1.
  unfold bind at 1, loads. rewrite Hl. unfold ret at 1.
  unfold bind at 1, require, dict_has. rewrite Hd. unfold ret at 1.
  unfold bind at 1, subscript. rewrite Hd. unfold ret at 1.
  destruct bs as [|b0 bs]; [done|].
  unfold bind at 1.
  destruct (process_books_rejects (b0 :: bs) b Hin Hb
              (record_call (generate_response_messages query chat_history criteria) w))
    as (e & w' & ->).
  reflexivity.
Qed.

(** ** Further properties: the handler *)

Lemma other_sessions_kept data w r w' sid :
  chatbot oracle data w = (r, w') ->
  sid <> session_of data ->
  chat_histories w' !! sid = chat_histories w !! sid.
Proof.
  intros E Hne.
  apply chatbot_run in E
    as [(_ & _ & ->)|[(_ & _ & _ & ->)|(_ & text & d & ro & h' & _ & _ & -> & _)]];
    [done|..]; simpl; by rewrite lookup_insert_ne.
Qed.

(** X9: a request changes no session but its own: every other entry of
    [chat_histories] is after the request what it was before, whatever the
    outcome. *)
Theorem other_sessions_untouched data w r w' sid :
  chatbot oracle data w = (r, w') ->
  sid <> session_of data ->
  chat_histories w' !! sid = chat_histories w !! sid.
Proof. apply other_sessions_kept. Qed.

(** X10: the status tells whether the query was there: the handler answers
    400 exactly when the query is falsy. *)
Theorem status_400_iff_falsy_query data w resp w' :
  chatbot oracle data w = (Ret resp, w') ->
  (exists err, resp = Http400 err) <-> truthy (data_query data) = false.
Proof.
  intros E.
  apply chatbot_run in E
    as [(Hq & Hr & _)|[(Hq & _ & Hr & _)|(Hq & text & d & ro & h' & _ & Ht & _ & Hr)]].
  - injection Hr as ->. split; [done|]. by eexists.
  - injection Hr as ->. split; [by intros [? ?]|congruence].
  - split; [|congruence]. intros [err ->].
    revert Hr. by destruct Ht.
Qed.

(** X11: when the topic classification answers ["true"], the next call is
    [generate_response]'s for the incoming query with no criteria; the
    books it returns at that point are the books of the response, under the
    fresh caption, and the session remembers both: those books as
    [last_recommended_books] and the incoming query as [last_query]. *)
Theorem fresh_recommendation_sets_books_and_query
    data w resp w' pre tc rest s :
  chatbot oracle data w = (Ret resp, w') ->
  oracle_log w' = oracle_log w ++ pre ++ tc :: rest ->
  stage_of tc = Some StTopic ->
  oracle (oracle_log w ++ pre) tc = Replies (Some s) ->
  str_lower (str_strip s) = "true" ->
  let q := data_query data in
  let sid := session_of data in
  let h0 := chat_history_of sid w in
  exists query_text out links,
    user_content q = Some query_text
    /\ (generate_response oracle q (messages h0 ++ [user query_text]) JNull
          (turn_world sid (add_message (user query_text) h0) (pre ++ [tc]) w)).1
       = Ret out
    /\ rest = ([("system", RecommendSystem None)]
                 ++ chat_context 5 (messages h0 ++ [user query_text])
                 ++ [("user", Text q)]) :: links
    /\ Forall is_links links
    /\ resp = Http200 fresh_caption (Some (Book_dict <$> books out)) sid
    /\ last_recommended_books (chat_history_of sid w') = Book_dict <$> books out
    /\ last_query (chat_history_of sid w') = q.
Proof.
  intros E Hlog Hst Ho Hs q sid h0.
  assert (Hv : verdict (oracle (oracle_log w ++ pre) tc) = Ret true).
  { rewrite Ho. unfold verdict; simpl. by rewrite bool_decide_eq_true_2. }
  clear Ho Hs.
  apply chatbot_run in E
    as [(_ & _ & ->)|[(_ & _ & _ & ->)|(Hq & text & d & ro & h' & Hu & Ht & -> & Hr)]].
  - by apply log_split_none in Hlog.
  - simpl in Hlog. rewrite app_nil_r in Hlog. by apply log_split_none in Hlog.
  - fold q sid in Ht, Hq, Hu |- *. fold h0 in Ht.
    cbn [oracle_log turn_world] in Hlog. apply log_split in Hlog.
    rewrite chat_history_of_turn.
    revert Hlog Hr.
    destruct Ht as [| | | | | | | |d1 d2 out links Hp1 Hp2 Hc Fl Eg];
      intros Hlog Hr; open_passes; split_calls Hlog;
      try rewrite app_nil_r in *; try discriminate; try congruence.
    all: exists text, out, links.
    all: split; [done|].
    all: split; [exact (f_equal fst Eg)|].
    all: injection Hr as <-; done.
Qed.

(** X12: when a book follow-up is answered, the response text is the
    oracle's details reply, stripped, with no book list; that call is the
    last of the turn. *)
Theorem book_followup_answers_with_details data w resp w' pre dc rest text :
  chatbot oracle data w = (Ret resp, w') ->
  oracle_log w' = oracle_log w ++ pre ++ dc :: rest ->
  stage_of dc = Some StDetails ->
  oracle (oracle_log w ++ pre) dc = Replies (Some text) ->
  resp = Http200 (str_strip text) None (session_of data) /\ rest = [].
Proof.
  intros E Hlog Hst Ho.
  assert (Hv : text_of (oracle (oracle_log w ++ pre) dc) = Ret (str_strip text))
    by by rewrite Ho.
  clear Ho.
  apply chatbot_run in E
    as [(_ & _ & ->)|[(_ & _ & _ & ->)|(Hq & qt & d & ro & h' & Hu & Ht & -> & Hr)]].
  - by apply log_split_none in Hlog.
  - simpl in Hlog. rewrite app_nil_r in Hlog. by apply log_split_none in Hlog.
  - simpl in Hlog. apply log_split in Hlog. revert Hlog Hr.
    destruct Ht; intros Hlog Hr; open_passes; split_calls Hlog;
      try rewrite app_nil_r in *; try discriminate; try congruence.
    all: injection Hr as ->; split; [|done]; congruence.
Qed.

(** X13: messages are only ever appended: whatever the outcome, the
    session's messages after a request are its messages before followed by
    nothing, by the user's message, or by the user's message and one
    assistant message. *)
Theorem messages_are_append_only data w r w' :
  chatbot oracle data w = (r, w') ->
  let sid := session_of data in
  exists added,
    messages (chat_history_of sid w') = messages (chat_history_of sid w) ++ added
    /\ (added = []
        \/ (exists query_text, added = [user query_text])
        \/ (exists query_text text, added = [user query_text; assistant text])).
Proof.
  intros E sid.
  apply chatbot_run in E
    as [(_ & _ & ->)|[(_ & _ & _ & ->)|(_ & qt & d & ro & h' & _ & Ht & -> & _)]].
  - exists []. rewrite app_nil_r. auto.
  - exists []. rewrite chat_history_of_turn, app_nil_r. auto.
  - fold sid in Ht |- *. rewrite chat_history_of_turn.
    destruct Ht; simpl; rewrite <- ?app_assoc; simpl;
      eexists; (split; [reflexivity|]); eauto.
Qed.

Lemma response_books_kept data w text bl sid w' :
  chatbot oracle data w = (Ret (Http200 text (Some bl) sid), w') ->
  sid = session_of data
  /\ last_recommended_books (chat_history_of sid w') = bl.
Proof.
  intros E.
  apply chatbot_run in E
    as [(_ & [=] & _)|[(_ & _ & [=] & _)|(_ & qt & d & ro & h' & _ & Ht & -> & Hr)]].
  revert Hr. destruct Ht; intros [= ]; subst;
    by rewrite chat_history_of_turn.
Qed.

(** X14: the books a response carries are the books the session keeps: a
    200 with a book list leaves exactly that list in
    [last_recommended_books], and echoes the session of the request. *)
Theorem response_books_are_remembered data w text bl sid w' :
  chatbot oracle data w = (Ret (Http200 text (Some bl) sid), w') ->
  sid = session_of data
  /\ last_recommended_books (chat_history_of sid w') = bl.
Proof. apply response_books_kept. Qed.

(** X15: a response without a book list changes neither memory: after a
    400, a 500 or a 200 whose [books] is [None], the session's
    [last_recommended_books] and [last_query] are what they were. *)
Theorem no_books_no_memory_change data w resp w' :
  chatbot oracle data w = (Ret resp, w') ->
  (forall text bl sid, resp <> Http200 text (Some bl) sid) ->
  let sid := session_of data in
  last_recommended_books (chat_history_of sid w')
  = last_recommended_books (chat_history_of sid w)
  /\ last_query (chat_history_of sid w') = last_query (chat_history_of sid w).
Proof.
  intros E Hn sid.
  apply chatbot_run in E
    as [(_ & _ & ->)|[(_ & _ & _ & ->)|(_ & qt & d & ro & h' & _ & Ht & -> & Hr)]].
  - done.
  - by rewrite chat_history_of_turn.
  - fold sid in Ht |- *. rewrite chat_history_of_turn.
    revert Hr. destruct Ht; intros [= ->]; try done.
    all: by edestruct Hn.
Qed.

(** X16: a match that is no usable book ends the request: when the oracle's
    answer to the book follow-up parses to a truthy value that is not a dict
    with ["title"], ["author"] and ["summary"] (a number, a string, a list,
    a dict of something else), the handler answers 500 after that one call,
    with the user's message appended and no other change to the session. *)
Theorem unusable_match_is_500 data w o text :
  let q := data_query data in
  let sid := session_of data in
  let h0 := chat_history_of sid w in
  let h := add_message (user text) h0 in
  truthy q = true ->
  user_content q = Some text ->
  last_recommended_books h0 <> [] ->
  oracle (oracle_log w) (followup_call q h) = Replies o ->
  truthy (followup_value o) = true ->
  has_details_fields (followup_value o) = false ->
  exists e,
    chatbot oracle data w
    = (Ret (Http500 e), turn_world sid h [followup_call q h] w).
Proof.
  intros q sid h0 h Hq Hu Hb Ho Hv Hf.
  unfold chatbot, try_except.
  change (default "default" (data_session_id data)) with sid.
  fold q. rewrite Hq. cbn [negb].
  unfold bind at 1. rewrite init_session_turn. fold h0.
  unfold bind at 1.
  assert (Hm : Message_new "user" q (turn_world sid h0 [] w)
               = (Ret (user text), turn_world sid h0 [] w)).
  { unfold Message_new, user_content in *. destruct q; try by rewrite Hu.
    by injection Hu as ->. }
  rewrite Hm. unfold append_message, bind at 1. rewrite update_turn. fold h.
  unfold chatbot_followup, bind at 1, read_chat_history.
  rewrite chat_history_of_turn.
  change (last_recommended_books h) with (last_recommended_books h0).
  destruct (last_recommended_books h0) as [|b bs] eqn:Eb; [done|].
  rewrite <- Eb. unfold bind at 1.
  rewrite is_book_followup_eq by (by rewrite Eb).
  rewrite record_call_turn.
  cbn [oracle_log turn_world app]. rewrite app_nil_r.
  change (is_book_followup_messages q (last_recommended_books h0))
    with (followup_call q h).
  rewrite Ho, Hv. unfold bind at 1.
  destruct (get_book_details_unprepared (followup_value o) q
              (turn_world sid h [followup_call q h] w) Hf) as (e & ->).
  by exists e.
Qed.

(** ** Further properties: what a session remembers *)

Lemma generate_response_nonempty query chat_history criteria w out w' :
  generate_response oracle query chat_history criteria w = (Ret out, w') ->
  books out <> [].
Proof.
  intros E.
  destruct (generate_response_run query chat_history criteria w)
    as (out0 & links & E0 & _ & H).
  rewrite E0 in E. injection E as -> _.
  destruct H as [->|(s & d & bs & _ & _ & _ & Hne & Hlen)]; [done|].
  destruct bs; [done|]. by destruct (books out).
Qed.

(** One step back through a run that returned. *)
Ltac step_ret E :=
  apply bind_inv in E as [(? & ? & ? & E)|(? & _ & [=])].

Lemma chatbot_topic_books q sid w text bl s w' :
  chatbot_topic oracle q sid w = (Ret (Http200 text (Some bl) s), w') ->
  bl <> [].
Proof.
  unfold chatbot_topic. intros E. step_ret E. step_ret E.
  match goal with b : bool |- _ => destruct b end; cbn [negb] in E.
  - step_ret E. step_ret E.
    match goal with H : generate_response _ _ _ _ _ = _ |- _ =>
      apply generate_response_nonempty in H end.
    step_ret E. step_ret E. step_ret E. step_ret E.
    injection E as _ <- _ _. by destruct (books _).
  - step_ret E. step_ret E. by injection E.
Qed.

Lemma chatbot_criteria_books q sid w text bl s w' :
  chatbot_criteria oracle q sid w = (Ret (Http200 text (Some bl) s), w') ->
  bl <> [].
Proof.
  unfold chatbot_criteria. intros E. step_ret E. step_ret E.
  match goal with b : bool |- _ => destruct b end.
  - step_ret E. step_ret E.
    match goal with H : generate_response _ _ _ _ _ = _ |- _ =>
      apply generate_response_nonempty in H end.
    step_ret E. step_ret E. step_ret E.
    injection E as _ <- _ _. by destruct (books _).
  - by eapply chatbot_topic_books.
Qed.

Lemma chatbot_followup_books q sid w text bl s w' :
  chatbot_followup oracle q sid w = (Ret (Http200 text (Some bl) s), w') ->
  bl <> [].
Proof.
  unfold chatbot_followup. intros E. step_ret E.
  match goal with h : ChatHistory |- _ =>
    destruct (last_recommended_books h) end;
    [by eapply chatbot_criteria_books|].
  step_ret E.
  match goal with v : json |- _ => destruct (truthy v) end;
    [|by eapply chatbot_criteria_books].
  step_ret E. step_ret E. step_ret E. by injection E.
Qed.

Lemma chatbot_books data w text bl s w' :
  chatbot oracle data w = (Ret (Http200 text (Some bl) s), w') -> bl <> [].
Proof.
  unfold chatbot. intros E.
  apply try_except_inv in E as [(resp & E & [= <-])|(e & w1 & _ & [=])].
  destruct (negb (truthy (data_query data))); [by injection E|].
  step_ret E. step_ret E. step_ret E. by eapply chatbot_followup_books.
Qed.

(** X17: a response never carries an empty book list: the books of a 200
    are the three fallback books or one for each book the oracle listed,
    and the oracle's empty list is answered with the fallback. *)
Theorem response_books_are_never_empty data w text bl s w' :
  chatbot oracle data w = (Ret (Http200 text (Some bl) s), w') -> bl <> [].
Proof. apply chatbot_books. Qed.

(** X18: every request keeps the memory of every session consistent (a
    last query exactly when there are last recommended books), whatever
    the oracle answers and whatever the outcome. *)
Theorem consistent_memory_is_kept data w r w' :
  chatbot oracle data w = (r, w') ->
  (forall sid h, chat_histories w !! sid = Some h -> consistent h) ->
  forall sid h, chat_histories w' !! sid = Some h -> consistent h.
Proof.
  intros E Hall sid h Hh.
  destruct (decide (sid = session_of data)) as [->|Hne].
  2: { eapply Hall. erewrite <- other_sessions_kept; done. }
  assert (H0 : consistent (chat_history_of (session_of data) w)).
  { unfold chat_history_of.
    destruct (chat_histories w !! session_of data) eqn:E0; simpl; [by eapply Hall|].
    unfold consistent; simpl. split; [discriminate|done]. }
  pose proof E as Erun.
  apply chatbot_run in Erun
    as [(_ & _ & ->)|[(_ & _ & _ & ->)|(Hq & qt & d & ro & h' & _ & Ht & -> & Hr)]].
  - by eapply Hall.
  - simpl in Hh. rewrite lookup_insert_eq in Hh. by injection Hh as <-.
  - simpl in Hh. rewrite lookup_insert_eq in Hh. injection Hh as <-. subst r.
    unfold consistent in *.
    destruct Ht; simpl in *; try done.
    all: apply chatbot_books in E; split; [done|congruence].
Qed.

(** ** Further properties: how often the oracle is asked *)

(** The world a step that asks nothing leaves. *)
Ltac same_world H :=
  first
    [ apply all_in_inv in H
    | apply require_inv in H as [H _]
    | apply subscript_inv in H as [H _]
    | apply setitem_inv in H as [H _]
    | progress (repeat match type of H with
                       | (if ?b then _ else _) _ = _ => destruct b
                       | (match ?p with _ => _ end) _ = _ => destruct p
                       end);
      first [ apply setitem_inv in H as [H _] | inversion H ] ].

Lemma process_book_calls book w r w' :
  process_book oracle book w = (r, w') ->
  w' = w \/ exists c, is_links c /\ w' = record_call c w.
Proof.
  unfold process_book. intros E.
  do 8 (apply bind_inv in E as [(? & ? & H1 & E)|(? & H1 & _)];
        same_world H1; subst; try (by left); try clear H1).
  all: right.
  all: apply bind_inv in E as [(? & ? & H1 & E)|(? & H1 & _)];
         apply fetch_real_links_inv in H1 as [-> _]; [same_world E; subst|];
         (eexists; split; [|reflexivity]; reflexivity).
Qed.

Lemma process_books_calls bs : forall w r w',
  process_books oracle bs w = (r, w') ->
  exists links, w' = record_calls links w
                /\ Forall is_links links
                /\ length links <= length bs.
Proof.
  induction bs as [|b bs IH]; simpl; intros w r w' E.
  - injection E as _ <-. exists []. by rewrite record_calls_nil.
  - apply bind_inv in E as [(b' & w1 & Eb & E)|(e & Eb & _)];
      apply process_book_calls in Eb.
    + apply bind_inv in E as [(rest & w2 & Er & E)|(e & Er & _)];
        [injection E as _ <-|];
        apply IH in Er as (links & -> & Fl & Hlen);
        destruct Eb as [->|(c & Hc & ->)].
      * exists links. repeat split; [done|lia].
      * exists (c :: links). rewrite record_call_calls, record_calls_app.
        repeat split; [by constructor|simpl; lia].
      * exists links. repeat split; [done|lia].
      * exists (c :: links). rewrite record_call_calls, record_calls_app.
        repeat split; [by constructor|simpl; lia].
    + destruct Eb as [->|(c & Hc & ->)].
      * exists []. rewrite record_calls_nil. repeat split; [done|simpl; lia].
      * exists [c]. repeat split; [by constructor|simpl; lia].
Qed.

Lemma Output_new_world l r w w' : Output_new l w = (r, w') -> w' = w.
Proof.
  unfold Output_new. destruct (mapM Book_validate l); by intros [= _ <-].
Qed.

Lemma generate_response_parse_calls o w r w' :
  generate_response_parse oracle o w = (r, w') ->
  exists links, w' = record_calls links w
                /\ Forall is_links links
                /\ length links <= length (listed_books (Replies o)).
Proof.
  assert (Hnone : forall w0, exists links : list OracleCall,
             w0 = record_calls links w0 /\ Forall is_links links
             /\ length links <= length (listed_books (Replies o))).
  { intros w0. exists []. rewrite record_calls_nil.
    repeat split; [done|simpl; lia]. }
  unfold generate_response_parse. intros E.
  apply bind_inv in E as [(content & w1 & H1 & E)|(? & H1 & _)];
    apply content_strip_inv in H1 as [-> Hc]; [|done].
  destruct o as [s|]; [|done]. injection Hc as ->.
  apply bind_inv in E as [(data & w1 & H1 & E)|(? & H1 & _)];
    apply loads_inv in H1 as [-> Hd]; [|done].
  apply bind_inv in E as [([] & w1 & H1 & E)|(? & H1 & _)];
    apply require_inv in H1 as [-> Hr]; [|done].
  apply bind_inv in E as [(bs & w1 & H1 & E)|(? & H1 & _)];
    apply subscript_inv in H1 as [-> Hb]; [|done].
  destruct (Hb bs eq_refl) as (d & -> & Hbs).
  destruct bs as [| | | | |[|b bs]|]; try (injection E as _ <-; done).
  apply bind_inv in E as [(processed & w1 & Ep & E)|(? & Ep & _)];
    apply process_books_calls in Ep as (links & -> & Fl & Hlen);
    [apply Output_new_world in E as ->|].
  all: exists links; split; [done|]; split; [done|].
  all: unfold listed_books.
  all: destruct (json_loads (str_strip s)) as [v|]; [|done].
  all: injection Hd as <-; by rewrite Hbs.
Qed.

(** X19: [generate_response] leaves the sessions alone and asks the oracle
    once for the recommendation and then only for links, at most once for
    each book the reply lists and not at all when the reply is unusable. *)
Theorem generate_response_asks_for_links_at_most_once_per_book
    query chat_history criteria w :
  let c := generate_response_messages query chat_history criteria in
  exists out links,
    generate_response oracle query chat_history criteria w
    = (Ret out, record_calls (c :: links) w)
    /\ Forall is_links links
    /\ length links <= length (listed_books (oracle (oracle_log w) c)).
Proof.
  intros c. unfold generate_response. fold c.
  unfold try_except, bind, create.
  destruct (oracle (oracle_log w) c) as [msg|o] eqn:Eo.
  { exists default_books, []. split; [done|]. split; [constructor|simpl; lia]. }
  destruct (generate_response_parse oracle o (record_call c w))
    as [[out|e] w1] eqn:E;
    apply generate_response_parse_calls in E as (links & -> & Fl & Hlen);
    rewrite record_call_calls, record_calls_app; simpl;
    eexists _, links; (split; [reflexivity|]); by split.
Qed.

(** X20: no criteria follow-up is asked of a session without a last query:
    when [last_query] is falsy, the request makes no call of
    [is_criteria_followup]'s. *)
Theorem no_criteria_call_without_last_query data w r w' :
  chatbot oracle data w = (r, w') ->
  truthy (last_query (chat_history_of (session_of data) w)) = false ->
  exists d, oracle_log w' = oracle_log w ++ d
            /\ Forall (fun c => stage_of c <> Some StCriteria) d.
Proof.
  intros E Hq.
  assert (Hl : forall links, Forall is_links links ->
                 Forall (fun c => stage_of c <> Some StCriteria) links).
  { intros links F. eapply Forall_impl; [exact F|].
    unfold is_links. congruence. }
  apply chatbot_run in E
    as [(_ & _ & ->)|[(_ & _ & _ & ->)|(_ & text & d & ro & h' & _ & Ht & -> & _)]].
  - exists []. by rewrite app_nil_r.
  - by exists [].
  - exists d. split; [done|].
    destruct Ht; open_passes; simpl in *; try congruence;
      repeat (apply Forall_cons; split; [first [discriminate|congruence]|]);
      auto.
Qed.

(** ** Further properties: one request after another *)

(** X21: the books shown are the books the next question is matched
    against: after a 200 that carried books, the next request of that
    session with a non-empty text query begins with [is_book_followup]'s
    call, made with exactly those books and that query. *)
Theorem next_request_is_matched_against_shown_books
    data1 w text bl sid w1 data2 s2 r2 w2 :
  chatbot oracle data1 w = (Ret (Http200 text (Some bl) sid), w1) ->
  chatbot oracle data2 w1 = (r2, w2) ->
  session_of data2 = sid ->
  data_query data2 = JStr s2 ->
  s2 <> "" ->
  exists rest,
    oracle_log w2
    = oracle_log w1
        ++ [ ("system", BookFollowupSystem);
             ("user", BookFollowupUser bl (JStr s2)) ] :: rest.
Proof.
  intros E1 E2 Hsid Hq Hs.
  pose proof (chatbot_books _ _ _ _ _ _ E1) as Hne.
  apply response_books_kept in E1 as [_ Hbl].
  apply chatbot_run in E2
    as [(Ht & _)|[(_ & Hu & _)|(_ & qt & d & ro & h' & Hu & Ht & -> & _)]].
  - rewrite Hq in Ht. simpl in Ht. by rewrite bool_decide_eq_false_2 in Ht.
  - by rewrite Hq in Hu.
  - rewrite Hsid, Hq in Ht.
    assert (Hfc : followup_call (JStr s2)
                    (add_message (user qt) (chat_history_of sid w1))
                  = [ ("system", BookFollowupSystem);
                      ("user", BookFollowupUser bl (JStr s2)) ]).
    { unfold followup_call, is_book_followup_messages. simpl. by rewrite Hbl. }
    simpl oracle_log.
    destruct Ht; open_passes; simpl in *; try congruence;
      rewrite Hfc; by eexists.
Qed.

(** ** Further properties: the fallback links *)

Lemma replace_space_plus_length s :
  String.length (replace_space_plus s) = String.length s.
Proof. induction s as [|a s IH]; simpl; [done|]. by rewrite IH. Qed.

Lemma replace_space_plus_get s : forall i,
  String.get i (replace_space_plus s)
  = (fun c => if Ascii.eqb c " " then "+"%char else c) <$> String.get i s.
Proof.
  induction s as [|a s IH]; intros [|i]; simpl; auto.
Qed.

(** X22: when the reply about links holds no JSON object with both keys
    (no content, nothing that parses, not an object, a key missing) and
    the title is a string, [fetch_real_links] returns the two search
    links, whose query is the lower-cased title with every space replaced
    by a plus sign and every other character kept. *)
Theorem fetch_real_links_falls_back_to_search_links title a w o :
  oracle (oracle_log w) [("user", LinksUser (JStr title) a)] = Replies o ->
  (forall s d,
      o = Some s ->
      json_loads (extract_json (str_strip s)) = Some (JObj d) ->
      dict_has "amazon" d && dict_has "lafeltrinelli" d = false) ->
  exists title_url,
    (fetch_real_links oracle (JStr title) a w).1
    = Ret (JObj [ ("amazon", JStr ("https://www.amazon.it/s?k=" ++ title_url)%string);
                  ("lafeltrinelli",
                   JStr ("https://www.lafeltrinelli.it/search?q=" ++ title_url)%string) ])
    /\ String.length title_url = String.length (str_lower title)
    /\ forall i,
         String.get i title_url
         = (fun c => if Ascii.eqb c " " then "+"%char else c)
             <$> String.get i (str_lower title).
Proof.
  intros Ho Hbad. exists (replace_space_plus (str_lower title)).
  split; [|split; [apply replace_space_plus_length|apply replace_space_plus_get]].
  unfold fetch_real_links, bind at 1, create. rewrite Ho.
  unfold try_except.
  destruct o as [s|]; [|reflexivity].
  unfold bind at 1; simpl content_strip; unfold ret at 1.
  unfold bind at 1, loads.
  destruct (json_loads (extract_json (str_strip s))) as [v|] eqn:El; [|reflexivity].
  unfold ret at 1, bind at 1, require.
  destruct v as [| | | | | |d]; try reflexivity.
  by rewrite (Hbad s d eq_refl El).
Qed.

End Properties.

(** * The claims on concrete runs *)
Import Demo.

(** C1 fails as stated: the oracle lists one well-formed book and
    [generate_response] returns that one book, not three. *)
Lemma generate_response_returns_one_book :
  exists out,
    (generate_response oracle_one_book (JStr "sci-fi") [] JNull world0).1 = Ret out
    /\ length (books out) = 1
    /\ length (books out) <> 3.
Proof.
  eexists. split; [vm_compute; reflexivity|]. split; [reflexivity|discriminate].
Qed.

(** C2 fails as stated: the oracle is down, the first request of a session
    is answered 500, and the session is left with the user's message and no
    assistant message. *)
Lemma failed_turn_leaves_user_message :
  (chatbot oracle_down hello world0).1
  = Ret (Http500 (OracleError "Connection error."))
  /\ messages (chat_history_of "default" world0) = []
  /\ messages (chat_history_of "default" (chatbot oracle_down hello world0).2)
     = [user "hello"].
Proof. vm_compute. repeat split. Qed.

(** C2, as amended, when the oracle is down on a first request. *)
Lemma uncaught_oracle_failure_witness :
  exists query_text,
    user_content (data_query hello) = Some query_text
    /\ messages (chat_history_of "default" (chatbot oracle_down hello world0).2)
       = messages (chat_history_of "default" world0) ++ [user query_text].
Proof.
  destruct (uncaught_oracle_failure_keeps_user_message
              oracle_down hello world0 _ _ (surjective_pairing _)) as (resp & _ & H).
  destruct (H [] hello_topic_call [] "Connection error.")
    as (_ & text & Hu & Hm & _);
    [vm_compute; reflexivity | reflexivity | discriminate | discriminate |].
  exists text. split; [exact Hu | exact Hm].
Defined.

(** C3 on a first request ["hello"]: the one call made is the topic
    classification, and its messages are the system prompt, the last three
    messages of a history that already holds the query, and the query
    again.  The query reaches the oracle twice. *)
Lemma topic_context_repeats_query :
  oracle_log (chatbot oracle_off_topic hello world0).2 = [hello_topic_call]
  /\ hello_topic_call
     = [("system", TopicSystem)]
         ++ chat_context 3 [user "hello"]
         ++ [("user", Text (JStr "hello"))].
Proof. vm_compute. split; reflexivity. Qed.

(** C4 on a first request that gets a recommendation. *)
Lemma messages_grow_witness :
  exists query_text,
    user_content (data_query hello) = Some query_text
    /\ messages (chat_history_of "default" (chatbot oracle_shop hello world0).2)
       = messages (chat_history_of "default" world0)
           ++ [user query_text; assistant fresh_caption].
Proof.
  assert (E : chatbot oracle_shop hello world0
              = (Ret (Http200 fresh_caption (Some [dune_found]) "default"),
                 (chatbot oracle_shop hello world0).2))
    by (vm_compute; reflexivity).
  destruct (messages_grow_by_user_then_assistant
              oracle_shop hello world0 _ _ E) as [H _].
  exact (H _ _ _ eq_refl).
Defined.





(** C8 on a first request: the session has no books yet. *)
Lemma no_followup_call_witness :
  exists d,
    oracle_log (chatbot oracle_shop hello world0).2 = oracle_log world0 ++ d
    /\ Forall (fun c => stage_of c <> Some StFollowup) d.
Proof.
  exact (proj2 (no_followup_call_without_books
                  oracle_shop hello world0 _ _ (surjective_pairing _) eq_refl)).
Defined.

(** C9 fails as stated: asked about the books last recommended (Emma), the
    oracle describes Dune, and [is_book_followup] returns Dune. *)
Lemma is_book_followup_returns_unlisted_book :
  (is_book_followup oracle_dune (JStr "the second one?") [emma] world0).1
  = Ret dune
  /\ dune <> JNull
  /\ ~ In dune [emma].
Proof.
  split; [vm_compute; reflexivity|]. split; [discriminate|].
  intros [H|[]]. discriminate H.
Qed.

(** C9, as amended, on the same run. *)
Lemma is_book_followup_witness :
  (is_book_followup oracle_dune (JStr "the second one?") [emma] world0).1
  = Ret JNull
  \/ exists v, json_loads (str_strip dune_text) = Some v
               /\ (is_book_followup oracle_dune (JStr "the second one?") [emma] world0).1
                  = Ret v.
Proof.
  exact (proj1 (is_book_followup_null_or_parsed oracle_dune
                  (JStr "the second one?") [emma] world0 _ _
                  ltac:(discriminate) (surjective_pairing _))).
Defined.

(** C10 on an empty query for a session that exists. *)
Lemma falsy_query_witness :
  chatbot oracle_shop empty_query world1
  = (Ret (Http400 "No query provided"), world1).
Proof.
  exact (falsy_query_is_rejected_untouched oracle_shop empty_query world1 eq_refl).
Defined.

(** * The further properties on concrete runs *)

(** X1 on a reply that wraps its JSON in prose. *)
Lemma extract_json_cuts_out_object_witness :
  extract_json "Here you go: {1} I hope it helps" = "{1}".
Proof.
  exact (extract_json_cuts_out_object "Here you go: " "1" " I hope it helps"
           eq_refl eq_refl).
Defined.

(** X2 on a reply that opens a brace and never closes it. *)
Lemma extract_json_without_braces_witness : extract_json "{ oops" = "".
Proof.
  apply (proj2 (extract_json_without_braces "{ oops"));
    [discriminate | reflexivity].
Defined.

(** X3 when the oracle knows no links for Dune. *)
Lemma fetch_real_links_returns_both_links_witness :
  exists d,
    search_links "dune" = JObj d
    /\ dict_has "amazon" d = true /\ dict_has "lafeltrinelli" d = true.
Proof.
  assert (E : fetch_real_links oracle_one_book (JStr "Dune") (JStr "Frank Herbert")
                world0
              = (Ret (search_links "dune"),
                 (fetch_real_links oracle_one_book (JStr "Dune")
                    (JStr "Frank Herbert") world0).2))
    by (vm_compute; reflexivity).
  exact (proj2 (proj2 (fetch_real_links_returns_both_links
                         oracle_one_book _ _ _ _ _ E))).
Defined.

(** X4 on the same call. *)
Lemma fetch_real_links_fails_only_with_the_call_witness :
  exists links,
    (fetch_real_links oracle_one_book (JStr "Dune") (JStr "Frank Herbert")
       world0).1 = Ret links.
Proof.
  exact (fetch_real_links_fails_only_with_the_call
           oracle_one_book "Dune" (JStr "Frank Herbert") world0 _ _
           (surjective_pairing _)).
Defined.

(** X5 when the match is the number 5. *)
Lemma get_book_details_needs_the_fields_witness :
  exists e,
    get_book_details oracle_dune (JInt 5) (JStr "tell me more") world0
    = (Exc e, world0).
Proof.
  exact (get_book_details_needs_the_fields oracle_dune (JInt 5)
           (JStr "tell me more") world0 eq_refl).
Defined.

(** X7 on Dune as the oracle lists it. *)
Lemma process_book_normalises_witness :
  exists d d',
    dune = JObj d /\ dune_processed = JObj d'
    /\ (exists xs, dict_get "author" d' = Some (JArr xs))
    /\ (exists p, dict_get "price" d' = Some p /\ is_number p = true)
    /\ (exists l, dict_get "purchase_links" d' = Some (JObj l)
                  /\ dict_has "amazon" l = true
                  /\ dict_has "lafeltrinelli" l = true)
    /\ dict_get "title" d' = dict_get "title" d
    /\ dict_get "summary" d' = dict_get "summary" d.
Proof.
  assert (E : process_book oracle_one_book dune world0
              = (Ret dune_processed, (process_book oracle_one_book dune world0).2))
    by (vm_compute; reflexivity).
  exact (process_book_normalises oracle_one_book _ _ _ _ E).
Defined.

(** X8 when the oracle lists Dune and an entry with only a title. *)
Lemma generate_response_one_bad_entry_witness :
  (generate_response (lib := lib2) oracle_two_books (JStr "sci-fi") [] JNull world0).1
  = Ret default_books.
Proof.
  apply (generate_response_one_bad_entry_discards_all (lib := lib2)
           oracle_two_books (JStr "sci-fi") [] JNull world0
           two_books_text [("books", JArr [dune; untitled])] [dune; untitled]
           untitled);
    [reflexivity | vm_compute; reflexivity | reflexivity
    | right; left; reflexivity | reflexivity].
Defined.

(** X9: a first request of session ["default"] leaves session ["s1"]. *)
Lemma other_sessions_untouched_witness :
  chat_histories (chatbot oracle_shop hello world1).2 !! "s1"
  = chat_histories world1 !! "s1".
Proof.
  exact (other_sessions_untouched oracle_shop hello world1 _ _ "s1"
           (surjective_pairing _) ltac:(discriminate)).
Defined.

(** X10 on an empty query. *)
Lemma status_400_iff_falsy_query_witness :
  (exists err, Http400 "No query provided" = Http400 err)
  <-> truthy (data_query empty_query) = false.
Proof.
  exact (status_400_iff_falsy_query oracle_shop empty_query world1 _ _ eq_refl).
Defined.

(** X11 on a first request that is on topic. *)
Lemma fresh_recommendation_witness :
  last_recommended_books
    (chat_history_of "default" (chatbot oracle_shop hello world0).2)
  = [dune_found]
  /\ last_query (chat_history_of "default" (chatbot oracle_shop hello world0).2)
     = JStr "hello".
Proof.
  assert (E : chatbot oracle_shop hello world0
              = (Ret (Http200 fresh_caption (Some [dune_found]) "default"),
                 (chatbot oracle_shop hello world0).2))
    by (vm_compute; reflexivity).
  destruct (fresh_recommendation_sets_books_and_query oracle_shop hello world0
              _ _ [] hello_topic_call
              (drop 1 (oracle_log (chatbot oracle_shop hello world0).2))
              "true" E)
    as (text & out & links & _ & _ & _ & _ & Hr & Hb & Hq);
    [vm_compute; reflexivity | reflexivity | reflexivity | reflexivity |].
  split; [|exact Hq].
  change (session_of hello) with "default" in Hb.
  rewrite Hb. by injection Hr as <-.
Defined.

(** X12 on a follow-up about the books of session ["s1"]. *)
Lemma book_followup_answers_with_details_witness :
  Http200 dune_text None "s1" = Http200 (str_strip dune_text) None (session_of in_italian)
  /\ @nil OracleCall = [].
Proof.
  assert (E : chatbot oracle_dune in_italian world1
              = (Ret (Http200 dune_text None "s1"),
                 (chatbot oracle_dune in_italian world1).2))
    by (vm_compute; reflexivity).
  apply (book_followup_answers_with_details oracle_dune in_italian world1
           _ _ [followup_call (JStr "anything in Italian?")
                  (chat_history_of "s1" world1)]
           [("system", DetailsSystem (JStr "Dune") (JArr [JStr "Frank Herbert"])
                         (JStr "A desert planet.") (JStr "anything in Italian?"))]
           [] dune_text E);
    [vm_compute; reflexivity | reflexivity | reflexivity].
Defined.

(** X13 when the oracle is down. *)
Lemma messages_are_append_only_witness :
  exists added,
    messages (chat_history_of "default" (chatbot oracle_down hello world0).2)
    = messages (chat_history_of "default" world0) ++ added.
Proof.
  destruct (messages_are_append_only oracle_down hello world0 _ _
              (surjective_pairing _)) as (added & H & _).
  by exists added.
Defined.

(** X14 on a first request that gets a recommendation. *)
Lemma response_books_are_remembered_witness :
  last_recommended_books
    (chat_history_of "default" (chatbot oracle_shop hello world0).2)
  = [dune_found].
Proof.
  assert (E : chatbot oracle_shop hello world0
              = (Ret (Http200 fresh_caption (Some [dune_found]) "default"),
                 (chatbot oracle_shop hello world0).2))
    by (vm_compute; reflexivity).
  exact (proj2 (response_books_are_remembered oracle_shop hello world0 _ _ _ _ E)).
Defined.

(** X15 on a follow-up that is found off topic. *)
Lemma no_books_no_memory_change_witness :
  last_query (chat_history_of "s1" (chatbot oracle_off_topic in_italian world1).2)
  = JStr "a classic".
Proof.
  assert (E : chatbot oracle_off_topic in_italian world1
              = (Ret (Http200 rejection_text None "s1"),
                 (chatbot oracle_off_topic in_italian world1).2))
    by (vm_compute; reflexivity).
  exact (proj2 (no_books_no_memory_change oracle_off_topic in_italian world1 _ _ E
                  ltac:(discriminate))).
Defined.

(** X16 when the oracle answers the follow-up question with ["true"]. *)
Lemma unusable_match_is_500_witness :
  exists e, (chatbot oracle_yes in_italian world1).1 = Ret (Http500 e).
Proof.
  destruct (unusable_match_is_500 oracle_yes in_italian world1 (Some "true")
              "anything in Italian?"
              eq_refl eq_refl ltac:(discriminate) eq_refl eq_refl eq_refl)
    as (e & E).
  exists e. by rewrite E.
Defined.

(** X17 on a first request that gets a recommendation. *)
Lemma response_books_are_never_empty_witness : [dune_found] <> [].
Proof.
  assert (E : chatbot oracle_shop hello world0
              = (Ret (Http200 fresh_caption (Some [dune_found]) "default"),
                 (chatbot oracle_shop hello world0).2))
    by (vm_compute; reflexivity).
  exact (response_books_are_never_empty oracle_shop hello world0 _ _ _ _ E).
Defined.

(** X18 on the first request of a server that has no session yet. *)
Lemma consistent_memory_is_kept_witness :
  consistent (chat_history_of "default" (chatbot oracle_shop hello world0).2).
Proof.
  apply (consistent_memory_is_kept oracle_shop hello world0 _ _
           (surjective_pairing _)) with (sid := "default").
  - intros sid h H. simpl in H. rewrite lookup_empty in H. discriminate H.
  - vm_compute. reflexivity.
Defined.

(** X20 on a first request. *)
Lemma no_criteria_call_witness :
  exists d,
    oracle_log (chatbot oracle_shop hello world0).2 = oracle_log world0 ++ d
    /\ Forall (fun c => stage_of c <> Some StCriteria) d.
Proof.
  exact (no_criteria_call_without_last_query oracle_shop hello world0 _ _
           (surjective_pairing _) eq_refl).
Defined.

(** X21: ["hello"] twice in a row. *)
Lemma next_request_witness :
  exists rest,
    oracle_log (chatbot oracle_shop hello (chatbot oracle_shop hello world0).2).2
    = oracle_log (chatbot oracle_shop hello world0).2
        ++ [ ("system", BookFollowupSystem);
             ("user", BookFollowupUser [dune_found] (JStr "hello")) ] :: rest.
Proof.
  assert (E : chatbot oracle_shop hello world0
              = (Ret (Http200 fresh_caption (Some [dune_found]) "default"),
                 (chatbot oracle_shop hello world0).2))
    by (vm_compute; reflexivity).
  exact (next_request_is_matched_against_shown_books oracle_shop
           hello world0 _ _ _ _ hello "hello" _ _
           E (surjective_pairing _) eq_refl eq_refl ltac:(discriminate)).
Defined.

(** X22 when the oracle knows no links for The Hobbit: the search links
    carry a title of the same length, with a plus sign where the space
    was and the lower-cased letters elsewhere. *)
Lemma fetch_real_links_falls_back_witness :
  exists title_url,
    (fetch_real_links oracle_one_book (JStr "The Hobbit") (JStr "J. R. R. Tolkien")
       world0).1
    = Ret (JObj [ ("amazon", JStr ("https://www.amazon.it/s?k=" ++ title_url)%string);
                  ("lafeltrinelli",
                   JStr ("https://www.lafeltrinelli.it/search?q=" ++ title_url)%string) ])
    /\ String.length title_url = 10
    /\ String.get 0 title_url = Some "t"%char
    /\ String.get 3 title_url = Some "+"%char
    /\ String.get 4 title_url = Some "h"%char.
Proof.
  destruct (fetch_real_links_falls_back_to_search_links oracle_one_book
              "The Hobbit" (JStr "J. R. R. Tolkien") world0 (Some "I do not know")
              eq_refl)
    as (u & Hu & Hl & Hg).
  - intros s d [= <-] H. vm_compute in H. discriminate H.
  - exists u. split; [exact Hu|]. split; [exact Hl|].
    split; [exact (Hg 0)|]. split; [exact (Hg 3) | exact (Hg 4)].
Defined.
